(** * careamics-napari: the training worker and the axes widget

    A shallow embedding of
    - [careamics_napari/careamics_utils/training_worker.py]: the generator
      [train_worker], the helper [_push_exception] and the thread body
      [_train];
    - [careamics_napari/widgets/axes_widget.py]: [LettersValidator] and
      [AxesWidget].

    Python integers are [Z], strings are [string], [None]-able values are
    [option].  A Python call that may raise is a value of [Outcome]; the
    body of [_train] runs in a small monad that records, in program order,
    the messages put on the update queue, the notifications shown and the
    call of [careamist.train]. *)

From Stdlib Require Import List String Ascii ZArith Bool Lia.
Import ListNotations.

Local Open Scope Z_scope.

(* ================================================================== *)
(** * Python preliminaries *)
(* ================================================================== *)

Module Py.

(** Classes deriving from [Exception] that the modelled code meets. *)
Inductive ExceptionClass : Type :=
| ValueError
| AttributeError
| IndexError
| RuntimeError
| AssertionError
| OtherError (name : string).

(** An instance of (a subclass of) [Exception]. *)
Record Exception : Type := mkException
  { exc_class : ExceptionClass;
    exc_msg : string }.

(** Everything a [raise] can throw: [Exception] instances, and the
    three builtin classes deriving from [BaseException] only, which an
    [except Exception] clause lets through. *)
Inductive BaseException : Type :=
| Exc (e : Exception)
| SystemExit
| KeyboardInterrupt
| GeneratorExit.

(** Result of a call: a returned value or a raised exception. *)
Inductive Outcome (A : Type) : Type :=
| Returned (a : A)
| Raised (b : BaseException).

Arguments Returned {A} a.
Arguments Raised {A} b.

(** [len(s)] *)
Definition len {A : Type} (l : list A) : Z := Z.of_nat (List.length l).

(** [l[i]] on a list: negative indices count from the end, an index
    outside [-len(l) .. len(l)-1] raises [IndexError].  The message is
    the one of an index that fits a machine word; beyond that Python
    words it differently, the class is the same. *)
Definition getitem {A : Type} (l : list A) (i : Z) : Outcome A :=
  let j := if i <? 0 then i + len l else i in
  if (j <? 0) || (len l <=? j) then
    Raised (Exc (mkException IndexError "list index out of range"))
  else
    match nth_error l (Z.to_nat j) with
    | Some x => Returned x
    | None => Raised (Exc (mkException IndexError "list index out of range"))
    end.

(** [s[i]] on a string. *)
Definition str_getitem (s : string) (i : Z) : Outcome ascii :=
  match getitem (list_ascii_of_string s) i with
  | Returned c => Returned c
  | Raised _ =>
      Raised (Exc (mkException IndexError "string index out of range"))
  end.

(** [c in s] for a one-character [c] and a string [s]. *)
Definition char_in (c : ascii) (s : string) : bool :=
  existsb (Ascii.eqb c) (list_ascii_of_string s).

(** [x in l] for a string [x] and a list of strings [l]. *)
Definition str_in (x : string) (l : list string) : bool :=
  existsb (String.eqb x) l.

(** [c.upper()] on one character, for the ASCII letters. *)
Definition upper_ascii (c : ascii) : ascii :=
  let n := nat_of_ascii c in
  if (Nat.leb 97 n) && (Nat.leb n 122) then ascii_of_nat (n - 32) else c.

(** [s.upper()] *)
Fixpoint upper (s : string) : string :=
  match s with
  | EmptyString => EmptyString
  | String c r => String (upper_ascii c) (upper r)
  end.

End Py.
Import Py.

(* ================================================================== *)
(** * Black-box collaborators *)
(* ================================================================== *)

(** The objects the plugin passes around without looking inside: the
    image data of a napari layer with the truth value Python gives to
    [train_data == val_data] on it (which may raise, as it does for a
    multi-element array), and the parts of the CAREamics objects that the
    worker never reads or writes. *)
Class Collaborators : Type :=
  { LayerData : Type;
    data_eq_truth : LayerData -> option LayerData -> Outcome bool;
    TrainingOther : Type;
    ConfigOther : Type;
    CareamistOther : Type }.

(* ================================================================== *)
(** * Signals *)
(* ================================================================== *)

Module Signals.
Section Signals.
Context `{Collaborators}.

(** Modelled from the spec: the declaration of [TrainUpdateType] is not
    among the sources; the members are the ones training_worker.py
    names. *)
Inductive TrainUpdateType : Type :=
| MAX_EPOCH
| EPOCH
| MAX_BATCH
| BATCH
| STATE
| CAREAMIST
| EXCEPTION.

(** Modelled from the spec: the declaration of [TrainingState] is not
    among the sources; the members are the ones training_worker.py
    names. *)
Inductive TrainingState : Type :=
| DONE
| STOPPED.

(** [careamics.config.support.SupportedAlgorithm] *)
Inductive SupportedAlgorithm : Type :=
| N2V
| CARE
| N2N.

(** [careamist.cfg.training_config] *)
Record TrainingConfig : Type := mkTrainingConfig
  { num_epochs : Z;
    training_other : TrainingOther }.

(** [careamist.cfg] *)
Record Configuration : Type := mkConfiguration
  { training_config : TrainingConfig;
    config_other : ConfigOther }.

(** A [CAREamist] instance. *)
Record CAREamist : Type := mkCAREamist
  { cfg : Configuration;
    careamist_other : CareamistOther }.

(** The second field of a [TrainUpdate]. *)
Inductive UpdateValue : Type :=
| VState (s : TrainingState)
| VException (e : Exception)
| VCareamist (c : CAREamist)
| VInt (n : Z).

Record TrainUpdate : Type := mkTrainUpdate
  { type : TrainUpdateType;
    value : UpdateValue }.

(** A napari layer, of which only [.data] is read. *)
Record Layer : Type := mkLayer
  { data : LayerData }.

(** Modelled from the spec: the declaration of
    [TrainConfigurationSignal] is not among the sources; the fields are
    the ones [_train] reads. *)
Record TrainConfigurationSignal : Type := mkTrainConfigurationSignal
  { load_from_disk : bool;
    algorithm : SupportedAlgorithm;
    path_train : string;
    path_val : string;
    path_train_target : string;
    path_val_target : string;
    layer_train : option Layer;
    layer_val : option Layer;
    layer_train_target : option Layer;
    layer_val_target : option Layer }.

Definition type_eqb (a b : TrainUpdateType) : bool :=
  match a, b with
  | MAX_EPOCH, MAX_EPOCH | EPOCH, EPOCH | MAX_BATCH, MAX_BATCH
  | BATCH, BATCH | STATE, STATE | CAREAMIST, CAREAMIST
  | EXCEPTION, EXCEPTION => true
  | _, _ => false
  end.

(** [v == s] for an update value [v] and a member [s] of
    [TrainingState]. *)
Definition value_eq_state (v : UpdateValue) (s : TrainingState) : bool :=
  match v, s with
  | VState DONE, DONE => true
  | VState STOPPED, STOPPED => true
  | _, _ => false
  end.

(** [a != b] on members of [SupportedAlgorithm]. *)
Definition algorithm_neb (a b : SupportedAlgorithm) : bool :=
  match a, b with
  | N2V, N2V | CARE, CARE | N2N, N2N => false
  | _, _ => true
  end.

End Signals.
End Signals.
Import Signals.

(* ================================================================== *)
(** * queue.Queue *)
(* ================================================================== *)

(** [queue.Queue] as the worker uses it: a FIFO buffer with a capacity.
    [put] and [get] are the blocking calls; [None] says that the caller
    has to wait. *)
Module Queue.
Section Queue.
Context `{Collaborators}.

Record t : Type := mk
  { maxsize : Z;
    items : list TrainUpdate }.

(** [Queue(maxsize)] *)
Definition new (maxsize : Z) : t :=
  {| maxsize := maxsize; items := [] |}.

Definition qsize (q : t) : Z := len (items q).

(** [Queue.full]: a capacity of zero or less means no bound. *)
Definition full (q : t) : bool :=
  (0 <? maxsize q) && (maxsize q <=? qsize q).

(** [q.put(u)] *)
Definition put (q : t) (u : TrainUpdate) : option t :=
  if full q then None
  else Some {| maxsize := maxsize q; items := items q ++ [u] |}.

(** [q.get(block=True)] *)
Definition get (q : t) : option (TrainUpdate * t) :=
  match items q with
  | [] => None
  | u :: rest => Some (u, {| maxsize := maxsize q; items := rest |})
  end.

End Queue.
End Queue.

(* ================================================================== *)
(** * training_worker.py *)
(* ================================================================== *)

Module training_worker.

(** ** The thread body [_train] *)

Section Train.
Context `{Collaborators}.

(** What is handed to [careamist.train] as a source or a target: a
    path on disk or the data of a layer. *)
Inductive Source : Type :=
| SrcPath (p : string)
| SrcData (d : LayerData).

(** The keyword arguments of [careamist.train]. *)
Record TrainArgs : Type := mkTrainArgs
  { train_source : Source;
    val_source : option Source;
    train_target : option Source;
    val_target : option Source }.

(** One run of [careamist.train]: the updates it puts on the update
    queue through its callbacks, then how it ends ([None]: it
    returns). *)
Record TrainRun : Type := mkTrainRun
  { callback_puts : list TrainUpdate;
    train_raises : option BaseException }.

(** What [_train] does to the outside, in program order. *)
Inductive Event : Type :=
| EPut (u : TrainUpdate)
| EShowError (msg : string)
| ETrain (c : CAREamist) (a : TrainArgs).

(** Computations of [_train]: the events so far and the outcome. *)
Definition M (A : Type) : Type := (list Event * Outcome A)%type.

Definition ret {A : Type} (a : A) : M A := ([], Returned a).

Definition bind {A B : Type} (m : M A) (k : A -> M B) : M B :=
  match m with
  | (t, Returned a) => let (t', o) := k a in (t ++ t', o)
  | (t, Raised b) => (t, Raised b)
  end.

Definition lift {A : Type} (o : Outcome A) : M A := ([], o).

Definition emit (e : Event) : M unit := ([e], Returned tt).

(** [try: body  except Exception as e: handler(e)] *)
Definition try_except_Exception (body : M unit)
    (handler : Exception -> M unit) : M unit :=
  match body with
  | (t, Raised (Exc e)) => let (t', o) := handler e in (t ++ t', o)
  | _ => body
  end.

(** The updates a trace puts on the update queue. *)
Fixpoint puts (t : list Event) : list TrainUpdate :=
  match t with
  | [] => []
  | EPut u :: r => u :: puts r
  | _ :: r => puts r
  end.

(** How many times a trace calls [careamist.train]. *)
Fixpoint train_count (t : list Event) : nat :=
  match t with
  | [] => O
  | ETrain _ _ :: r => S (train_count r)
  | _ :: r => train_count r
  end.

End Train.

Declare Scope train_scope.
Delimit Scope train_scope with train.
Notation "x <- c ;; k" := (bind c (fun x => k))
  (at level 61, c at next level, right associativity) : train_scope.
Notation "c ;; k" := (bind c (fun _ => k))
  (at level 61, right associativity) : train_scope.

(** The functions [_train] calls whose code is elsewhere:
    [create_configuration] of this plugin, the constructor and the
    [train] method of [CAREamist]. *)
Class Library `{Collaborators} : Type :=
  { create_configuration : TrainConfigurationSignal -> Outcome Configuration;
    CAREamist_init : Configuration -> Outcome CAREamist;
    careamist_train : CAREamist -> TrainArgs -> TrainRun }.

Section TrainBody.
Context `{Library}.
Local Open Scope train_scope.

(** [queue.put(u)] on the update queue. *)
Definition queue_put (u : TrainUpdate) : M unit := emit (EPut u).

(** [ntf.show_error(msg)] *)
Definition show_error (msg : string) : M unit := emit (EShowError msg).

(** [careamist.train(train_source=.., val_source=.., train_target=..,
    val_target=..)] *)
Definition call_train (careamist : CAREamist) (a : TrainArgs) : M unit :=
  let run := careamist_train careamist a in
  (ETrain careamist a :: map EPut (callback_puts run),
   match train_raises run with
   | None => Returned tt
   | Some b => Raised b
   end).

(** [layer.data], where [layer] may be [None]. *)
Definition getattr_data (layer : option Layer) : Outcome LayerData :=
  match layer with
  | Some l => Returned (data l)
  | None =>
      Raised (Exc (mkException AttributeError
                     "'NoneType' object has no attribute 'data'"))
  end.

(** [layer == s] for a layer (or [None]) and a string: never equal. *)
Definition layer_eq_str (layer : option Layer) (s : string) : bool := false.

(** [a == b] for a string and a string or [None]. *)
Definition str_eq_opt (a : string) (b : option string) : bool :=
  match b with
  | Some b => String.eqb a b
  | None => false
  end.

(** [careamist.cfg.training_config.num_epochs = n] *)
Definition set_num_epochs (careamist : CAREamist) (n : Z) : CAREamist :=
  {| cfg :=
       {| training_config :=
            {| num_epochs := n;
               training_other :=
                 training_other (training_config (cfg careamist)) |};
          config_other := config_other (cfg careamist) |};
     careamist_other := careamist_other careamist |}.

(** [_push_exception(queue, e)] *)
Definition _push_exception (e : Exception) : M unit :=
  queue_put (mkTrainUpdate EXCEPTION (VException e)).

(** How the block that formats the data (lines 90-167) ends: with a
    [return] out of [_train], or by falling through to the training
    call with the four data values. *)
Inductive Flow : Type :=
| Return
| Fallthrough (a : TrainArgs).

Definition format_data (config_signal : TrainConfigurationSignal) : M Flow :=
  if load_from_disk config_signal then
    if String.eqb (path_train config_signal) "" then
      _push_exception (mkException ValueError "Training data path is empty.") ;;
      ret Return
    else
      let train_data := path_train config_signal in
      let val_data :=
        if negb (String.eqb (path_val config_signal) "")
        then Some (path_val config_signal) else None in
      let val_data :=
        if str_eq_opt train_data val_data then None else val_data in
      if algorithm_neb (algorithm config_signal) N2V then
        if String.eqb (path_train_target config_signal) "" then
          _push_exception
            (mkException ValueError "Training target data path is empty.") ;;
          ret Return
        else
          let train_data_target := path_train_target config_signal in
          let val_data_target :=
            match val_data with
            | Some _ =>
                if negb (String.eqb (path_val_target config_signal) "")
                then Some (path_val_target config_signal) else None
            | None => None
            end in
          ret (Fallthrough
                 {| train_source := SrcPath train_data;
                    val_source := option_map SrcPath val_data;
                    train_target := Some (SrcPath train_data_target);
                    val_target := option_map SrcPath val_data_target |})
      else
        ret (Fallthrough
               {| train_source := SrcPath train_data;
                  val_source := option_map SrcPath val_data;
                  train_target := None;
                  val_target := None |})
  else
    match layer_train config_signal with
    | None =>
        _push_exception
          (mkException ValueError "Training data path is empty.")
    | Some _ => ret tt
    end ;;
    train_data <- lift (getattr_data (layer_train config_signal)) ;;
    let val_data :=
      match layer_val config_signal with
      | Some l => Some (data l)
      | None => None
      end in
    eq <- lift (data_eq_truth train_data val_data) ;;
    let val_data := if eq : bool then None else val_data in
    if algorithm_neb (algorithm config_signal) N2V then
      match layer_train_target config_signal with
      | None =>
          _push_exception
            (mkException ValueError "Training target data path is empty.") ;;
          ret Return
      | Some target =>
          let train_data_target := data target in
          let val_data_target :=
            match val_data with
            | Some _ =>
                match layer_val_target config_signal with
                | Some l => Some (data l)
                | None => None
                end
            | None => None
            end in
          ret (Fallthrough
                 {| train_source := SrcData train_data;
                    val_source := option_map SrcData val_data;
                    train_target := Some (SrcData train_data_target);
                    val_target := option_map SrcData val_data_target |})
      end
    else
      ret (Fallthrough
             {| train_source := SrcData train_data;
                val_source := option_map SrcData val_data;
                train_target := None;
                val_target := None |}).

(** The careamist [_train] works with: a fresh one, or the one passed
    in with its number of epochs replaced. *)
Definition the_careamist (config : Configuration)
    (careamist : option CAREamist) : Outcome CAREamist :=
  match careamist with
  | None => CAREamist_init config
  | Some c0 => Returned (set_num_epochs c0 (num_epochs (training_config config)))
  end.


(** Lines 169-201: the guarded training call and the closing message. *)
Definition train_and_finish (careamist : CAREamist) (a : TrainArgs) : M unit :=
  try_except_Exception
    (call_train careamist a)
    (fun e => queue_put (mkTrainUpdate EXCEPTION (VException e))) ;;
  queue_put (mkTrainUpdate STATE (VState DONE)).

Definition _train (config_signal : TrainConfigurationSignal)
    (careamist : option CAREamist) : M unit :=
  config <- lift (create_configuration config_signal) ;;
  careamist <-
    match careamist with
    | None => lift (CAREamist_init config)
    | Some careamist =>
        let careamist :=
          set_num_epochs careamist (num_epochs (training_config config)) in
        (if layer_eq_str (layer_val config_signal) ""
            && String.eqb (path_val config_signal) ""
         then show_error "Continuing training is currently not supported without explicitely passing validation. The reason is that otherwise, the data used for validation will be different and there will be data leakage in the training set."
         else ret tt) ;;
        ret careamist
    end ;;
  queue_put (mkTrainUpdate CAREAMIST (VCareamist careamist)) ;;
  flow <- format_data config_signal ;;
  match flow with
  | Return => ret tt
  | Fallthrough a => train_and_finish careamist a
  end.

End TrainBody.

(** ** The generator [train_worker] *)

Section Worker.
Context `{Library}.

(** The test that ends the loop of [train_worker] (lines 51-54). *)
Definition ends_loop (update : TrainUpdate) : bool :=
  (type_eqb (type update) STATE && value_eq_state (value update) DONE)
  || type_eqb (type update) EXCEPTION.

(** Where the generator stands: blocked in [update_queue.get], about to
    [yield update], about to test [update], or past the [break]. *)
Inductive Pc : Type :=
| AtGet
| AtYield (update : TrainUpdate)
| AtCheck (update : TrainUpdate)
| Stopped.

(** The training thread, the queue and the generator together:
    [to_put] are the updates the thread has still to put, in order;
    [dequeued] and [yielded] record what the generator has taken from
    the queue and handed to its consumer. *)
Record World : Type := mkWorld
  { to_put : list TrainUpdate;
    update_queue : Queue.t;
    pc : Pc;
    dequeued : list TrainUpdate;
    yielded : list TrainUpdate }.

(** [train_worker] up to its loop: the queue of capacity 10 and the
    started thread.  [updates] is everything the thread will put. *)
Definition train_worker_start (updates : list TrainUpdate) : World :=
  {| to_put := updates;
     update_queue := Queue.new 10;
     pc := AtGet;
     dequeued := [];
     yielded := [] |}.

(** One move of the generator through its loop (lines 46-55). *)
Definition train_worker_step (w : World) : option World :=
  match pc w with
  | AtGet =>
      match Queue.get (update_queue w) with
      | Some (update, q) =>
          Some {| to_put := to_put w;
                  update_queue := q;
                  pc := AtYield update;
                  dequeued := dequeued w ++ [update];
                  yielded := yielded w |}
      | None => None
      end
  | AtYield update =>
      Some {| to_put := to_put w;
              update_queue := update_queue w;
              pc := AtCheck update;
              dequeued := dequeued w;
              yielded := yielded w ++ [update] |}
  | AtCheck update =>
      Some {| to_put := to_put w;
              update_queue := update_queue w;
              pc := if ends_loop update then Stopped else AtGet;
              dequeued := dequeued w;
              yielded := yielded w |}
  | Stopped => None
  end.

(** One [put] of the training thread. *)
Definition thread_step (w : World) : option World :=
  match to_put w with
  | [] => None
  | u :: rest =>
      match Queue.put (update_queue w) u with
      | Some q =>
          Some {| to_put := rest;
                  update_queue := q;
                  pc := pc w;
                  dequeued := dequeued w;
                  yielded := yielded w |}
      | None => None
      end
  end.

(** The two threads interleave freely. *)
Inductive step (w w' : World) : Prop :=
| step_thread : thread_step w = Some w' -> step w w'
| step_worker : train_worker_step w = Some w' -> step w w'.

Inductive steps (w : World) : World -> Prop :=
| steps_refl : steps w w
| steps_next w' w'' : steps w w' -> step w' w'' -> steps w w''.

(** Nothing can move: both threads are blocked or finished. *)
Definition stuck (w : World) : Prop :=
  thread_step w = None /\ train_worker_step w = None.

(** A scheduler that lets the generator move whenever it can. *)
Fixpoint run (fuel : nat) (w : World) : World :=
  match fuel with
  | O => w
  | S fuel' =>
      match train_worker_step w with
      | Some w' => run fuel' w'
      | None =>
          match thread_step w with
          | Some w' => run fuel' w'
          | None => w
          end
      end
  end.

(** The update that is dequeued and not yet yielded. *)
Definition in_hand (p : Pc) : list TrainUpdate :=
  match p with
  | AtYield update => [update]
  | _ => []
  end.

(** The updates of [us] up to and including the first that ends the
    loop. *)
Fixpoint until_last (us : list TrainUpdate) : list TrainUpdate :=
  match us with
  | [] => []
  | u :: rest => if ends_loop u then [u] else u :: until_last rest
  end.

(** A bound on the moves that are left. *)
Definition weight (w : World) : nat :=
  4 * List.length (to_put w)
  + 3 * List.length (Queue.items (update_queue w))
  + match pc w with
    | AtYield _ => 2
    | AtCheck _ => 1
    | AtGet | Stopped => 0
    end.

(** The updates on which the loop is to end, in the words of its
    description: type EXCEPTION, or type STATE with value
    [TrainingState.DONE].  Stated apart from [ends_loop], the test the
    code makes. *)
Definition exception_or_done (u : TrainUpdate) : Prop :=
  type u = EXCEPTION \/ (type u = STATE /\ value u = VState DONE).

(** An update after which the loop goes on. *)
Definition carries_on (u : TrainUpdate) : Prop := ends_loop u = false.

(** What holds of every state the three parties can be in, for the
    updates [us] the thread puts. *)
Record Inv (us : list TrainUpdate) (w : World) : Prop := mkInv
  { inv_fifo :
      us = dequeued w ++ Queue.items (update_queue w) ++ to_put w;
    inv_hand : dequeued w = yielded w ++ in_hand (pc w);
    inv_maxsize : Queue.maxsize (update_queue w) = 10;
    inv_qsize : Queue.qsize (update_queue w) <= 10;
    inv_pc :
      match pc w with
      | AtGet | AtYield _ => Forall carries_on (yielded w)
      | AtCheck u =>
          exists pre, yielded w = pre ++ [u] /\ Forall carries_on pre
      | Stopped =>
          exists pre u,
            yielded w = pre ++ [u] /\ Forall carries_on pre
            /\ ends_loop u = true
      end }.

(** [train_worker(config_signal, careamist)]: the thread runs [_train]
    and puts what it puts. *)
Definition train_worker (config_signal : TrainConfigurationSignal)
    (careamist : option CAREamist) : World :=
  train_worker_start (puts (fst (_train config_signal careamist))).

End Worker.

End training_worker.

(* ================================================================== *)
(** * axes_widget.py *)
(* ================================================================== *)

Module axes_widget.

Inductive Highlight : Type :=
| VALID
| UNRECOGNIZED
| NOT_ACCEPTED.

Definition Highlight_eqb (a b : Highlight) : bool :=
  match a, b with
  | VALID, VALID | UNRECOGNIZED, UNRECOGNIZED
  | NOT_ACCEPTED, NOT_ACCEPTED => true
  | _, _ => false
  end.

(** [QtGui.QValidator.State] *)
Inductive QValidatorState : Type :=
| Invalid
| Intermediate
| Acceptable.

Module LettersValidator.

(** The validator keeps the characters it accepts, [self._options]. *)
Record t : Type := mk
  { _options : string }.

(** [LettersValidator.validate(self, value, pos)].  The inner [match]
    is the [if]/[else] of lines 22-27; [None] means that no [return]
    was reached there and control falls to line 28. *)
Definition validate (self : t) (value : string) (pos : Z)
  : Outcome (QValidatorState * string * Z) :=
  let at_if : Outcome (option (QValidatorState * string * Z)) :=
    if len (list_ascii_of_string value) >? 0 then
      match str_getitem value (-1) with
      | Returned last =>
          if char_in last (_options self)
          then Returned (Some (Acceptable, value, pos))
          else Returned None
      | Raised b => Raised b
      end
    else
      if String.eqb value ""
      then Returned (Some (Intermediate, value, pos))
      else Returned None in
  match at_if with
  | Returned (Some r) => Returned r
  | Returned None => Returned (Invalid, value, pos)
  | Raised b => Raised b
  end.

End LettersValidator.

(** The rule table of the plugin, whose code is elsewhere:
    [are_axes_valid] and [filter_dimensions] of [careamics_napari.utils]. *)
Class AxesRules : Type :=
  { are_axes_valid : string -> bool;
    filter_dimensions : Z -> bool -> list string }.

(** The fields of an [AxesWidget] that its methods read or write; the
    text and the style sheet are those of [self.text_field]. *)
Record AxesWidget : Type := mkAxesWidget
  { n_axes : Z;
    is_3D : bool;
    is_text_valid : bool;
    text : string;
    styleSheet : string }.

(** The two tables of [get_default_text]. *)
Definition defaults (is_3D : bool) : list string :=
  if is_3D
  then ["YX"; "ZYX"; "SZYX"; "STZYX"; "STCZYX"]%string
  else ["YX"; "SYX"; "STYX"; "STCYX"; "STC?YX"]%string.

(** [AxesWidget.get_default_text] *)
Definition get_default_text (self : AxesWidget) : Outcome string :=
  getitem (defaults (is_3D self)) (n_axes self - 2).

(** The assertion of [AxesWidget.__init__] (line 41). *)
Definition init_assertion (n_axes : Z) : bool :=
  (0 <? n_axes) && (n_axes <=? 6).

(** Modelled from the spec: the declaration of [ConfigurationSignal]
    is not among the sources; [use_channels] is the one field the widget
    writes, [signal_other] stands for the rest. *)
Record ConfigurationSignal (Other : Type) : Type := mkConfigurationSignal
  { use_channels : bool;
    signal_other : Other }.

Arguments mkConfigurationSignal {Other} use_channels signal_other.
Arguments use_channels {Other} c.
Arguments signal_other {Other} c.

Section Widget.
Context `{AxesRules}.

(** [AxesWidget.get_axes] *)
Definition get_axes (self : AxesWidget) : string := text self.

(** [self.text_field.setStyleSheet(s)] *)
Definition setStyleSheet (self : AxesWidget) (s : string) : AxesWidget :=
  {| n_axes := n_axes self;
     is_3D := is_3D self;
     is_text_valid := is_text_valid self;
     text := text self;
     styleSheet := s |}.

(** [AxesWidget._set_text_color] *)
Definition _set_text_color (self : AxesWidget) (highlight : Highlight)
  : AxesWidget :=
  let self :=
    {| n_axes := n_axes self;
       is_3D := is_3D self;
       is_text_valid := Highlight_eqb highlight VALID;
       text := text self;
       styleSheet := styleSheet self |} in
  if Highlight_eqb highlight UNRECOGNIZED then
    setStyleSheet self "color: red;"
  else if Highlight_eqb highlight NOT_ACCEPTED then
    setStyleSheet self "color: orange;"
  else
    setStyleSheet self "color: white;".

(** [AxesWidget._validate_text] *)
Definition _validate_text (self : AxesWidget) : AxesWidget :=
  let axes := get_axes self in
  if are_axes_valid axes then
    if str_in (upper axes) (filter_dimensions (n_axes self) (is_3D self))
    then _set_text_color self VALID
    else _set_text_color self NOT_ACCEPTED
  else
    _set_text_color self UNRECOGNIZED.

(** [AxesWidget.is_valid]: the widget after the call and the value
    returned. *)
Definition is_valid (self : AxesWidget) : AxesWidget * bool :=
  let self := _validate_text self in
  (self, is_text_valid self).

(** [AxesWidget.update_axes_number] *)
Definition update_axes_number (self : AxesWidget) (n : Z) : AxesWidget :=
  _validate_text
    {| n_axes := n;
       is_3D := is_3D self;
       is_text_valid := is_text_valid self;
       text := text self;
       styleSheet := styleSheet self |}.

(** [AxesWidget.update_is_3D] *)
Definition update_is_3D (self : AxesWidget) (is_3D : bool) : AxesWidget :=
  _validate_text
    {| n_axes := n_axes self;
       is_3D := is_3D;
       is_text_valid := is_text_valid self;
       text := text self;
       styleSheet := styleSheet self |}.

(** [AxesWidget.__init__(signal, n_axes, is_3D)], as far as the fields
    above go: the assertion, the default text, the first validation. *)
Definition __init__ (n_axes : Z) (is_3D : bool) : Outcome AxesWidget :=
  if negb (init_assertion n_axes) then
    Raised (Exc (mkException AssertionError ""))
  else
    let self :=
      {| n_axes := n_axes;
         is_3D := is_3D;
         is_text_valid := true;
         text := "";
         styleSheet := "" |} in
    match get_default_text self with
    | Returned default =>
        Returned
          (_validate_text
             {| n_axes := n_axes;
                is_3D := is_3D;
                is_text_valid := true;
                text := default;
                styleSheet := "" |})
    | Raised b => Raised b
    end.

(** [AxesWidget._axes_changed], on the object behind [self.signal]
    ([None] when the widget has no signal). *)
Definition _axes_changed {Other : Type} (self : AxesWidget)
    (signal : option (ConfigurationSignal Other))
  : option (ConfigurationSignal Other) :=
  match signal with
  | Some s =>
      if is_text_valid self then
        Some {| use_channels := char_in "C" (get_axes self);
                signal_other := signal_other s |}
      else Some s
  | None => None
  end.

(** The slots of [text_field.textChanged] once the constructor is done,
    run in the order of their connection ([_validate_text], line 62,
    then [_axes_changed], line 75) when the text of the field has become
    [new_text]. *)
Definition textChanged {Other : Type} (self : AxesWidget)
    (signal : option (ConfigurationSignal Other)) (new_text : string)
  : AxesWidget * option (ConfigurationSignal Other) :=
  let self :=
    {| n_axes := n_axes self;
       is_3D := is_3D self;
       is_text_valid := is_text_valid self;
       text := new_text;
       styleSheet := styleSheet self |} in
  let self := _validate_text self in
  (self, _axes_changed self signal).

End Widget.

End axes_widget.

(* ================================================================== *)
(** * Sample collaborators *)
(* ================================================================== *)

(** Concrete collaborators, on which the statements below are run. *)
Module Samples.
Import training_worker.
Local Open Scope string_scope.

(** Layer data as a flat list of pixels, compared as an array is: the
    comparison has a truth value only when a single element is left. *)
Definition array_eq_truth (a : list Z) (b : option (list Z)) : Outcome bool :=
  match a, b with
  | [x], Some [y] => Returned (Z.eqb x y)
  | [x], None => Returned false
  | _, _ =>
      Raised (Exc (mkException ValueError
        "The truth value of an array with more than one element is ambiguous."))
  end.

Definition collaborators : Collaborators :=
  {| LayerData := list Z;
     data_eq_truth := array_eq_truth;
     TrainingOther := string;
     ConfigOther := string;
     CareamistOther := string |}.

Definition configuration (epochs : Z) : @Configuration collaborators :=
  @mkConfiguration collaborators
    (@mkTrainingConfig collaborators epochs "batch_size=16")
    "n2v, YX".

Definition epoch (n : Z) : @TrainUpdate collaborators :=
  mkTrainUpdate EPOCH (VInt n).

Definition out_of_memory : Exception :=
  mkException RuntimeError "CUDA out of memory".

(** A library whose training reports one epoch and then fails. *)
Definition failing_library : @Library collaborators :=
  {| create_configuration := fun _ => Returned (configuration 100);
     CAREamist_init :=
       fun c => Returned (@mkCAREamist collaborators c "fresh");
     careamist_train :=
       fun _ _ =>
         {| callback_puts := [epoch 0];
            train_raises := Some (Exc out_of_memory) |} |}.

(** A library whose training reports two epochs and returns. *)
Definition working_library : @Library collaborators :=
  {| create_configuration := fun _ => Returned (configuration 100);
     CAREamist_init :=
       fun c => Returned (@mkCAREamist collaborators c "fresh");
     careamist_train :=
       fun _ _ =>
         {| callback_puts := [epoch 0; epoch 1];
            train_raises := None |} |}.

(** Noise2Void on files, validation on the training file itself. *)
Definition disk_signal : @TrainConfigurationSignal collaborators :=
  {| load_from_disk := true;
     algorithm := N2V;
     path_train := "train.tif";
     path_val := "train.tif";
     path_train_target := "";
     path_val_target := "";
     layer_train := None;
     layer_val := None;
     layer_train_target := None;
     layer_val_target := None |}.

(** CARE on one-pixel layers. *)
Definition layer_signal : @TrainConfigurationSignal collaborators :=
  {| load_from_disk := false;
     algorithm := CARE;
     path_train := "";
     path_val := "";
     path_train_target := "";
     path_val_target := "";
     layer_train := Some (@mkLayer collaborators [7]);
     layer_val := Some (@mkLayer collaborators [7]);
     layer_train_target := Some (@mkLayer collaborators [9]);
     layer_val_target := None |}.

(** Layers selected as the source, but no training layer chosen. *)
Definition no_layer_signal : @TrainConfigurationSignal collaborators :=
  {| load_from_disk := false;
     algorithm := N2V;
     path_train := "";
     path_val := "";
     path_train_target := "";
     path_val_target := "";
     layer_train := None;
     layer_val := None;
     layer_train_target := None;
     layer_val_target := None |}.

(** Noise2Void on a two-pixel layer. *)
Definition array_signal : @TrainConfigurationSignal collaborators :=
  {| load_from_disk := false;
     algorithm := N2V;
     path_train := "";
     path_val := "";
     path_train_target := "";
     path_val_target := "";
     layer_train := Some (@mkLayer collaborators [1; 2]);
     layer_val := None;
     layer_train_target := None;
     layer_val_target := None |}.

(** A CAREamist left from an earlier training of 10 epochs. *)
Definition old_careamist : @CAREamist collaborators :=
  @mkCAREamist collaborators (configuration 10) "trained".

(** The CAREamist the sample libraries create. *)
Definition fresh_careamist : @CAREamist collaborators :=
  @mkCAREamist collaborators (configuration 100) "fresh".

(** [old_careamist] set to the 100 epochs of the new configuration. *)
Definition continued_careamist : @CAREamist collaborators :=
  @mkCAREamist collaborators (configuration 100) "trained".

(** The arguments of the training call for [disk_signal]. *)
Definition disk_args : @TrainArgs collaborators :=
  @mkTrainArgs collaborators (SrcPath "train.tif") None None None.

(** The arguments of the training call for [layer_signal]. *)
Definition layer_args : @TrainArgs collaborators :=
  @mkTrainArgs collaborators
    (@SrcData collaborators [7]) None
    (Some (@SrcData collaborators [9])) None.

Definition stopped : @TrainUpdate collaborators :=
  mkTrainUpdate STATE (VState STOPPED).

Definition done : @TrainUpdate collaborators :=
  mkTrainUpdate STATE (VState DONE).

Definition rules : axes_widget.AxesRules :=
  {| axes_widget.are_axes_valid := fun s => String.eqb (upper s) "YX";
     axes_widget.filter_dimensions := fun _ _ => ["YX"%string] |}.

(** A library whose [create_configuration] rejects the signal. *)
Definition broken_library : @Library collaborators :=
  {| create_configuration :=
       fun _ => Raised (Exc (mkException ValueError "invalid configuration"));
     CAREamist_init :=
       fun c => Returned (@mkCAREamist collaborators c "fresh");
     careamist_train :=
       fun _ _ => {| callback_puts := []; train_raises := None |} |}.

(** CARE on files without a target. *)
Definition no_target_signal : @TrainConfigurationSignal collaborators :=
  {| load_from_disk := true;
     algorithm := CARE;
     path_train := "train.tif";
     path_val := "val.tif";
     path_train_target := "";
     path_val_target := "";
     layer_train := None;
     layer_val := None;
     layer_train_target := None;
     layer_val_target := None |}.

(** CARE on files with separate validation files. *)
Definition care_signal : @TrainConfigurationSignal collaborators :=
  {| load_from_disk := true;
     algorithm := CARE;
     path_train := "train.tif";
     path_val := "val.tif";
     path_train_target := "target.tif";
     path_val_target := "val_target.tif";
     layer_train := None;
     layer_val := None;
     layer_train_target := None;
     layer_val_target := None |}.

(** The arguments of the training call for [care_signal]. *)
Definition care_args : @TrainArgs collaborators :=
  @mkTrainArgs collaborators
    (SrcPath "train.tif") (Some (SrcPath "val.tif"))
    (Some (SrcPath "target.tif")) (Some (SrcPath "val_target.tif")).


(** Rules that accept the axes YX and CYX in either case. *)
Definition channel_rules : axes_widget.AxesRules :=
  {| axes_widget.are_axes_valid :=
       fun s => String.eqb (upper s) "YX" || String.eqb (upper s) "CYX";
     axes_widget.filter_dimensions := fun _ _ => ["YX"; "CYX"] |}.

End Samples.

(* ================================================================== *)
(** * The generator and the queue *)
(* ================================================================== *)

Import training_worker.

Section WorkerFacts.
Context `{Library}.

Lemma ends_loop_spec (u : TrainUpdate) :
  ends_loop u = true <->
  type u = EXCEPTION \/ (type u = STATE /\ value u = VState DONE).
Proof.
  destruct u as [ty v]; unfold ends_loop; simpl.
  split.
  - destruct ty; simpl; try discriminate; auto.
    destruct v as [[|] | | |]; simpl; try discriminate; auto.
  - intros [-> | [-> ->]]; reflexivity.
Qed.

Lemma qsize_app (m : Z) (l : list TrainUpdate) (u : TrainUpdate) :
  Queue.qsize {| Queue.maxsize := m; Queue.items := l ++ [u] |}
  = Queue.qsize {| Queue.maxsize := m; Queue.items := l |} + 1.
Proof.
  unfold Queue.qsize, len; simpl. rewrite length_app; simpl. lia.
Qed.

Lemma put_some (q q' : Queue.t) (u : TrainUpdate) :
  Queue.put q u = Some q' ->
  Queue.full q = false
  /\ q' = {| Queue.maxsize := Queue.maxsize q;
             Queue.items := Queue.items q ++ [u] |}.
Proof.
  unfold Queue.put. destruct (Queue.full q); [discriminate|].
  intros [= <-]. auto.
Qed.

Lemma get_some (q q' : Queue.t) (u : TrainUpdate) :
  Queue.get q = Some (u, q') ->
  Queue.items q = u :: Queue.items q'
  /\ Queue.maxsize q' = Queue.maxsize q.
Proof.
  unfold Queue.get. destruct (Queue.items q) as [|x r] eqn:E; [discriminate|].
  intros [= <- <-]. auto.
Qed.

Lemma inv_start (us : list TrainUpdate) : Inv us (train_worker_start us).
Proof.
  constructor; simpl; auto.
  unfold Queue.qsize, len; simpl; lia.
Qed.

Lemma inv_thread_step (us : list TrainUpdate) (w w' : World) :
  Inv us w -> thread_step w = Some w' -> Inv us w'.
Proof.
  intros [Hf Hh Hm Hq Hp]. unfold thread_step.
  destruct (to_put w) as [|u rest] eqn:Et; [discriminate|].
  destruct (Queue.put (update_queue w) u) as [q|] eqn:Eq; [|discriminate].
  intros [= <-]. apply put_some in Eq as [Hfull ->].
  constructor; simpl; auto.
  - rewrite Hf. rewrite <- (app_assoc (Queue.items _)). reflexivity.
  - rewrite qsize_app. unfold Queue.full in Hfull. rewrite Hm in Hfull.
    simpl in Hfull. apply Z.leb_gt in Hfull.
    destruct (update_queue w); unfold Queue.qsize in *; simpl in *. lia.
Qed.

Lemma inv_worker_step (us : list TrainUpdate) (w w' : World) :
  Inv us w -> train_worker_step w = Some w' -> Inv us w'.
Proof.
  intros [Hf Hh Hm Hq Hp]. unfold train_worker_step.
  destruct (pc w) as [|u|u|] eqn:Epc; simpl in *.
  - destruct (Queue.get (update_queue w)) as [[u q]|] eqn:Eg; [|discriminate].
    intros [= <-]. apply get_some in Eg as [Hi Hm'].
    constructor; simpl; auto.
    + rewrite Hf, Hi. rewrite <- app_assoc. reflexivity.
    + rewrite Hh, app_nil_r. reflexivity.
    + congruence.
    + unfold Queue.qsize, len in *. rewrite Hi in Hq. simpl in Hq. lia.
  - intros [= <-]. constructor; simpl; auto.
    + rewrite app_nil_r. assumption.
    + exists (yielded w). auto.
  - intros [= <-]. constructor; simpl; auto.
    + destruct (ends_loop u); simpl; assumption.
    + destruct Hp as [pre [Hy Hpre]].
      destruct (ends_loop u) eqn:Eu.
      * exists pre, u. auto.
      * rewrite Hy. apply Forall_app. split; [assumption|].
        constructor; [exact Eu | constructor].
  - discriminate.
Qed.

Lemma inv_steps (us : list TrainUpdate) (w : World) :
  steps (train_worker_start us) w -> Inv us w.
Proof.
  induction 1 as [|w' w'' _ IH Hs].
  - apply inv_start.
  - destruct Hs; eauto using inv_thread_step, inv_worker_step.
Qed.

Lemma steps_trans (w1 w2 w3 : World) :
  steps w1 w2 -> steps w2 w3 -> steps w1 w3.
Proof.
  intros H12 H23. induction H23; eauto using steps.
Qed.

Lemma step_extends (w w' : World) :
  step w w' ->
  exists d y, dequeued w' = dequeued w ++ d /\ yielded w' = yielded w ++ y.
Proof.
  intros [Hs | Hs].
  - unfold thread_step in Hs.
    destruct (to_put w); [discriminate|].
    destruct (Queue.put _ _); [|discriminate].
    injection Hs as <-. exists [], []. simpl. rewrite !app_nil_r. auto.
  - unfold train_worker_step in Hs. destruct (pc w) as [|u|u|].
    + destruct (Queue.get _) as [[u q]|]; [|discriminate].
      injection Hs as <-. exists [u], []. simpl. rewrite app_nil_r. auto.
    + injection Hs as <-. exists [], [u]. simpl. rewrite app_nil_r. auto.
    + injection Hs as <-. exists [], []. simpl. rewrite !app_nil_r. auto.
    + discriminate.
Qed.

Lemma steps_extends (w w' : World) :
  steps w w' ->
  exists d y, dequeued w' = dequeued w ++ d /\ yielded w' = yielded w ++ y.
Proof.
  induction 1 as [|w' w'' _ IH Hs].
  - exists [], []. rewrite !app_nil_r. auto.
  - destruct IH as (d & y & Hd & Hy).
    destruct (step_extends _ _ Hs) as (d' & y' & Hd' & Hy').
    exists (d ++ d'), (y ++ y'). rewrite Hd', Hy', Hd, Hy, !app_assoc. auto.
Qed.

(** In a list whose last element is the only one that may end the loop,
    an element that ends the loop is the last. *)
Lemma ends_is_last (pre0 pre post : list TrainUpdate) (u0 u : TrainUpdate) :
  pre0 ++ [u0] = pre ++ u :: post ->
  Forall carries_on pre0 -> ends_loop u = true ->
  post = [] /\ u = u0.
Proof.
  intros E Hpre Hu.
  destruct post as [|x post'] using rev_ind.
  - apply app_inj_tail in E as [_ E]. auto.
  - clear IHpost'.
    change (pre ++ u :: post' ++ [x]) with (pre ++ (u :: post') ++ [x]) in E.
    rewrite app_assoc in E. apply app_inj_tail in E as [E _].
    rewrite E in Hpre. apply Forall_app in Hpre as [_ Hpre].
    inversion Hpre as [|? ? Hc _]; subst. unfold carries_on in Hc. congruence.
Qed.

Lemma carries_not_ends (l pre post : list TrainUpdate) (u : TrainUpdate) :
  Forall carries_on l -> l = pre ++ u :: post -> ends_loop u = true -> False.
Proof.
  intros Hl -> Hu. apply Forall_app in Hl as [_ Hl].
  inversion Hl as [|? ? Hc _]; subst. unfold carries_on in Hc. congruence.
Qed.

Lemma until_last_ends (pre rest : list TrainUpdate) (u : TrainUpdate) :
  Forall carries_on pre -> ends_loop u = true ->
  until_last (pre ++ u :: rest) = pre ++ [u].
Proof.
  intros Hpre Hu. induction Hpre as [|x pre Hx _ IH]; simpl.
  - rewrite Hu. reflexivity.
  - unfold carries_on in Hx. rewrite Hx, IH. reflexivity.
Qed.

Lemma until_last_carries (us : list TrainUpdate) :
  Forall carries_on us -> until_last us = us.
Proof.
  induction 1 as [|x us Hx _ IH]; simpl; [reflexivity|].
  unfold carries_on in Hx. rewrite Hx, IH. reflexivity.
Qed.

Lemma thread_step_weight (w w' : World) :
  thread_step w = Some w' -> (weight w' < weight w)%nat.
Proof.
  unfold thread_step, weight.
  destruct (to_put w) as [|u rest]; [discriminate|].
  destruct (Queue.put _ _) as [q|] eqn:E; [|discriminate].
  apply put_some in E as [_ ->]. intros [= <-]. simpl.
  rewrite length_app. simpl. lia.
Qed.

Lemma worker_step_weight (w w' : World) :
  train_worker_step w = Some w' -> (weight w' < weight w)%nat.
Proof.
  unfold train_worker_step, weight.
  destruct (pc w) as [|u|u|].
  - destruct (Queue.get _) as [[u q]|] eqn:E; [|discriminate].
    apply get_some in E as [E _]. intros [= <-]. simpl. rewrite E. simpl. lia.
  - intros [= <-]. simpl. lia.
  - intros [= <-]. simpl. destruct (ends_loop u); lia.
  - discriminate.
Qed.

Lemma run_steps (n : nat) (w : World) : steps w (run n w).
Proof.
  revert w. induction n as [|n IH]; intros w; simpl; [constructor|].
  destruct (train_worker_step w) as [w'|] eqn:Ew.
  - eapply steps_trans; [|apply IH].
    eapply steps_next; [constructor | apply step_worker; exact Ew].
  - destruct (thread_step w) as [w'|] eqn:Et; [|constructor].
    eapply steps_trans; [|apply IH].
    eapply steps_next; [constructor | apply step_thread; exact Et].
Qed.

Lemma run_stuck (n : nat) (w : World) :
  (weight w <= n)%nat -> stuck (run n w).
Proof.
  revert w. induction n as [|n IH]; intros w Hw; simpl.
  - destruct (train_worker_step w) as [w'|] eqn:Ew.
    { apply worker_step_weight in Ew. lia. }
    destruct (thread_step w) as [w'|] eqn:Et.
    { apply thread_step_weight in Et. lia. }
    split; assumption.
  - destruct (train_worker_step w) as [w'|] eqn:Ew.
    { apply IH. apply worker_step_weight in Ew. lia. }
    destruct (thread_step w) as [w'|] eqn:Et.
    { apply IH. apply thread_step_weight in Et. lia. }
    split; assumption.
Qed.

Lemma inv_ends_last (us : list TrainUpdate) (w : World)
    (pre post : list TrainUpdate) (u : TrainUpdate) :
  Inv us w -> yielded w = pre ++ u :: post -> ends_loop u = true ->
  post = [] /\ (pc w = AtCheck u \/ pc w = Stopped).
Proof.
  intros [_ _ _ _ Hp] Hy Hu.
  destruct (pc w) as [|u0|u0|].
  - exfalso. eapply carries_not_ends; eauto.
  - exfalso. eapply carries_not_ends; eauto.
  - destruct Hp as (pre0 & Hy0 & Hpre0). rewrite Hy0 in Hy.
    destruct (ends_is_last _ _ _ _ _ Hy Hpre0 Hu) as [-> ->]. auto.
  - destruct Hp as (pre0 & u0 & Hy0 & Hpre0 & _). rewrite Hy0 in Hy.
    destruct (ends_is_last _ _ _ _ _ Hy Hpre0 Hu) as [-> _]. auto.
Qed.

Lemma inv_stuck (us : list TrainUpdate) (w : World) :
  Inv us w -> stuck w -> yielded w = until_last us.
Proof.
  intros [Hf Hh Hm Hq Hp] [Ht Hw].
  unfold train_worker_step in Hw.
  destruct (pc w) as [|u|u|] eqn:Epc; simpl in *; try discriminate.
  - destruct (Queue.get (update_queue w)) as [[u q]|] eqn:Eg; [discriminate|].
    unfold Queue.get in Eg.
    destruct (Queue.items (update_queue w)) as [|x r] eqn:Ei; [|discriminate].
    unfold thread_step in Ht.
    destruct (to_put w) as [|u rest] eqn:Etp.
    + rewrite Hh in Hf. simpl in Hf. rewrite !app_nil_r in Hf.
      subst us. symmetry. apply until_last_carries. exact Hp.
    + unfold Queue.put, Queue.full, Queue.qsize, len in Ht.
      rewrite Hm, Ei in Ht. simpl in Ht. discriminate.
  - destruct Hp as (pre & u & Hy & Hpre & Hu).
    rewrite Hf, Hh, Hy. simpl. rewrite app_nil_r, <- app_assoc. simpl.
    symmetry. apply until_last_ends; assumption.
Qed.

(** A blocked generator waits in [get], on an empty queue that nobody
    will fill, or has left its loop. *)
Lemma inv_stuck_cases (us : list TrainUpdate) (w : World) :
  Inv us w -> stuck w ->
  (pc w = AtGet /\ Queue.items (update_queue w) = [] /\ to_put w = []
   /\ yielded w = us /\ Forall carries_on us)
  \/ pc w = Stopped.
Proof.
  intros [Hf Hh Hm Hq Hp] [Ht Hw].
  unfold train_worker_step in Hw.
  destruct (pc w) as [|u|u|] eqn:Epc; simpl in *; try discriminate; auto.
  left.
  destruct (Queue.get (update_queue w)) as [[u q]|] eqn:Eg; [discriminate|].
  unfold Queue.get in Eg.
  destruct (Queue.items (update_queue w)) as [|x r] eqn:Ei; [|discriminate].
  unfold thread_step in Ht.
  destruct (to_put w) as [|u rest] eqn:Etp.
  - rewrite Hh in Hf. simpl in Hf. rewrite !app_nil_r in Hf. subst us. auto.
  - unfold Queue.put, Queue.full, Queue.qsize, len in Ht.
    rewrite Hm, Ei in Ht. simpl in Ht. discriminate.
Qed.

Lemma carries_on_no_ending (us : list TrainUpdate) (u : TrainUpdate) :
  Forall carries_on us -> In u us -> ends_loop u = true -> False.
Proof.
  intros Hall Hin Hu. rewrite Forall_forall in Hall.
  specialize (Hall _ Hin). unfold carries_on in Hall. congruence.
Qed.

(** C1. For every sequence [us] of updates the training thread puts on
    the update queue, and in every state [w] that the thread, the queue
    and the generator [train_worker] can reach: the updates yielded so
    far are an initial segment of [us], so they come out one at a time
    in FIFO order; every update taken from the queue has been yielded,
    except the one just dequeued that is yielded by the next move; an
    update of type EXCEPTION, or of type STATE with value DONE, is the
    last one yielded, and the generator is then testing it or has
    stopped; once such an update is yielded nothing more is ever
    dequeued or yielded; the generator has stopped only if the last
    update it yielded is of that kind; the test after a [yield] breaks
    out of the loop when the update is of that kind and goes back to
    [get] when it is not (a STATE update with another value, say);
    when nothing can move any more, either [us] has a first update of
    that kind and the generator has yielded exactly the updates up to
    and including it and has stopped, or [us] has none, and the
    generator has yielded all of [us] and waits in [get]; and such a
    state is reached from [w] within [weight w] moves. *)
Theorem train_worker_yields_in_order_until_last
    (us : list TrainUpdate) (w : World) :
  steps (train_worker_start us) w ->
  (exists rest, us = yielded w ++ rest)
  /\ dequeued w = yielded w ++ in_hand (pc w)
  /\ (forall pre u post,
        yielded w = pre ++ u :: post ->
        exception_or_done u ->
        post = [] /\ (pc w = AtCheck u \/ pc w = Stopped))
  /\ (forall pre u w',
        yielded w = pre ++ [u] ->
        exception_or_done u ->
        steps w w' ->
        dequeued w' = dequeued w /\ yielded w' = yielded w)
  /\ (pc w = Stopped ->
      exists pre u, yielded w = pre ++ [u] /\ exception_or_done u)
  /\ (forall u,
        pc w = AtCheck u ->
        exists w',
          train_worker_step w = Some w'
          /\ yielded w' = yielded w
          /\ dequeued w' = dequeued w
          /\ ((exception_or_done u /\ pc w' = Stopped)
              \/ (~ exception_or_done u /\ pc w' = AtGet)))
  /\ (stuck w ->
      (exists pre u post,
         us = pre ++ u :: post
         /\ (forall x, In x pre -> ~ exception_or_done x)
         /\ exception_or_done u
         /\ yielded w = pre ++ [u]
         /\ pc w = Stopped)
      \/ ((forall x, In x us -> ~ exception_or_done x)
          /\ yielded w = us
          /\ pc w = AtGet))
  /\ (steps w (run (weight w) w) /\ stuck (run (weight w) w)).
Proof.
  intros Hs. pose proof (inv_steps _ _ Hs) as HI.
  assert (Hcarry : forall l x,
             Forall carries_on l -> In x l -> ~ exception_or_done x).
  { intros l x Hl Hx Hu. apply ends_loop_spec in Hu.
    exact (carries_on_no_ending _ _ Hl Hx Hu). }
  split; [|split; [|split; [|split; [|split; [|split; [|split]]]]]].
  - destruct HI as [Hf Hh _ _ _]. rewrite Hf, Hh, <- !app_assoc. eauto.
  - apply HI.
  - intros pre u post Hy Hu. apply ends_loop_spec in Hu.
    eapply inv_ends_last; eauto.
  - intros pre u w' Hy Hu Hs'. apply ends_loop_spec in Hu.
    pose proof (inv_steps _ _ (steps_trans _ _ _ Hs Hs')) as HI'.
    destruct (steps_extends _ _ Hs') as (d & y & Hd & Hy').
    rewrite Hy, <- app_assoc in Hy'. simpl in Hy'.
    destruct (inv_ends_last _ _ _ _ _ HI' Hy' Hu) as [-> Hpc'].
    destruct (inv_ends_last _ _ _ _ _ HI Hy Hu) as [_ Hpc].
    rewrite (inv_hand _ _ HI'), (inv_hand _ _ HI), Hy', Hy.
    destruct Hpc as [-> | ->], Hpc' as [-> | ->]; auto.
  - intros Epc. destruct HI as [_ _ _ _ Hp]. rewrite Epc in Hp.
    destruct Hp as (pre & u & Hy & _ & Hu).
    exists pre, u. split; [exact Hy|]. apply ends_loop_spec. exact Hu.
  - intros u Epc. unfold train_worker_step. rewrite Epc.
    eexists. split; [reflexivity|]. simpl.
    split; [reflexivity|]. split; [reflexivity|].
    destruct (ends_loop u) eqn:Eu.
    + left. split; [apply ends_loop_spec; exact Eu | reflexivity].
    + right. split; [|reflexivity].
      intros Hu. apply ends_loop_spec in Hu. congruence.
  - intros Hst.
    destruct (inv_stuck_cases _ _ HI Hst)
      as [(Epc & _ & _ & Hy & Hall) | Epc].
    + right. split; [|auto]. intros x Hx. exact (Hcarry _ _ Hall Hx).
    + left. destruct HI as [Hf Hh _ _ Hp]. rewrite Epc in Hp, Hh.
      destruct Hp as (pre & u & Hy & Hpre & Hu).
      exists pre, u, (Queue.items (update_queue w) ++ to_put w).
      split.
      { rewrite Hf, Hh, Hy. simpl. rewrite app_nil_r, <- app_assoc.
        reflexivity. }
      split; [intros x Hx; exact (Hcarry _ _ Hpre Hx)|].
      split; [apply ends_loop_spec; exact Hu|]. auto.
  - split; [apply run_steps | apply run_stuck; lia].
Qed.

Lemma steps_first (w1 w2 w3 : World) :
  step w1 w2 -> steps w2 w3 -> steps w1 w3.
Proof.
  intros H12 H23. eapply steps_trans; [|exact H23].
  eapply steps_next; [constructor | exact H12].
Qed.

Lemma put_blocks_iff_full (q : Queue.t) (u : TrainUpdate) :
  Queue.put q u = None <-> Queue.full q = true.
Proof.
  unfold Queue.put. destruct (Queue.full q); split; congruence.
Qed.

(** C4. The update queue between the training thread and the generator
    is created as [Queue(10)], and in every state the two can reach it
    has capacity 10 and holds at most 10 updates: a [put] blocks
    exactly when 10 updates are waiting, so the thread cannot add an
    eleventh, and each [get] of the generator frees one place. *)
Theorem update_queue_holds_at_most_10 (us : list TrainUpdate) (w : World) :
  steps (train_worker_start us) w ->
  update_queue (train_worker_start us) = Queue.new 10
  /\ Queue.maxsize (update_queue w) = 10
  /\ (List.length (Queue.items (update_queue w)) <= 10)%nat
  /\ (forall u,
        Queue.put (update_queue w) u = None
        <-> List.length (Queue.items (update_queue w)) = 10%nat)
  /\ (List.length (Queue.items (update_queue w)) = 10%nat ->
        thread_step w = None)
  /\ (forall u q,
        Queue.get (update_queue w) = Some (u, q) ->
        S (List.length (Queue.items q))
        = List.length (Queue.items (update_queue w))).
Proof.
  intros Hs. destruct (inv_steps _ _ Hs) as [_ _ Hm Hq _].
  assert (Hfull : Queue.full (update_queue w) = true
                  <-> List.length (Queue.items (update_queue w)) = 10%nat).
  { unfold Queue.full. rewrite Hm. simpl.
    unfold Queue.qsize, len in *. rewrite Z.leb_le. lia. }
  split; [reflexivity|]. split; [exact Hm|].
  split; [unfold Queue.qsize, len in Hq; lia|].
  split; [|split].
  - intros u. rewrite put_blocks_iff_full. exact Hfull.
  - intros Hl. unfold thread_step.
    destruct (to_put w) as [|u rest]; [reflexivity|].
    destruct (Queue.put (update_queue w) u) eqn:E; [|reflexivity].
    apply Hfull in Hl. apply put_blocks_iff_full with (u := u) in Hl.
    congruence.
  - intros u q Hg. apply get_some in Hg as [-> _]. reflexivity.
Qed.

End WorkerFacts.

(** The generator on four updates: a STATE update with value STOPPED,
    an epoch, DONE and one more epoch.  It goes on after STOPPED and the
    epoch, yields DONE and stops; the last epoch is never yielded. *)
Lemma train_worker_yields_in_order_until_last_witness :
  let us :=
    [Samples.stopped; Samples.epoch 0; Samples.done; Samples.epoch 1] in
  let w := run 16 (train_worker_start us) in
  steps (train_worker_start us) w
  /\ stuck w
  /\ yielded w = [Samples.stopped; Samples.epoch 0; Samples.done]
  /\ ((exists pre u post,
         us = pre ++ u :: post
         /\ (forall x, In x pre -> ~ exception_or_done x)
         /\ exception_or_done u
         /\ yielded w = pre ++ [u]
         /\ pc w = Stopped)
      \/ ((forall x, In x us -> ~ exception_or_done x)
          /\ yielded w = us
          /\ pc w = AtGet)).
Proof.
  intros us w.
  assert (Hs : steps (train_worker_start us) w).
  { apply run_steps. }
  assert (Hst : stuck w) by (split; vm_compute; reflexivity).
  split; [exact Hs|]. split; [exact Hst|].
  split; [vm_compute; reflexivity|].
  destruct (train_worker_yields_in_order_until_last us w Hs)
    as (_ & _ & _ & _ & _ & _ & Hstuck & _).
  exact (Hstuck Hst).
Defined.

(** Twelve updates and a generator that has not moved yet: after ten
    puts the queue is full and the thread has to wait. *)
Lemma update_queue_holds_at_most_10_witness :
  let us := map Samples.epoch [0; 1; 2; 3; 4; 5; 6; 7; 8; 9; 10; 11] in
  let w :=
    {| to_put := map Samples.epoch [10; 11];
       update_queue :=
         {| Queue.maxsize := 10;
            Queue.items := map Samples.epoch [0; 1; 2; 3; 4; 5; 6; 7; 8; 9] |};
       pc := AtGet;
       dequeued := [];
       yielded := [] |} in
  steps (train_worker_start us) w
  /\ thread_step w = None
  /\ (List.length (Queue.items (update_queue w)) <= 10)%nat.
Proof.
  intros us w.
  assert (Hs : steps (train_worker_start us) w).
  { do 10 (eapply steps_first; [apply step_thread; vm_compute; reflexivity|]).
    apply steps_refl. }
  split; [exact Hs|].
  destruct (update_queue_holds_at_most_10 us w Hs)
    as (_ & _ & Hle & _ & Hfull & _).
  split; [apply Hfull; reflexivity | exact Hle].
Defined.

(* ================================================================== *)
(** * The thread body *)
(* ================================================================== *)

Section TrainFacts.
Context `{Library}.

Lemma puts_app (t1 t2 : list Event) : puts (t1 ++ t2) = puts t1 ++ puts t2.
Proof.
  induction t1 as [|[u|m|c a] t1 IH]; simpl; rewrite ?IH; reflexivity.
Qed.

Lemma puts_map_EPut (l : list TrainUpdate) : puts (map EPut l) = l.
Proof.
  induction l as [|u l IH]; simpl; rewrite ?IH; reflexivity.
Qed.

Lemma not_in_map_EPut (c : CAREamist) (a : TrainArgs) (l : list TrainUpdate) :
  ~ In (ETrain c a) (map EPut l).
Proof.
  induction l as [|u l IH]; simpl; [tauto|].
  intros [E | E]; [discriminate | auto].
Qed.

(** Lines 169-201 by the way the training run ends. *)
Lemma train_and_finish_eq (careamist : CAREamist) (a : TrainArgs) :
  train_and_finish careamist a =
  let run := careamist_train careamist a in
  match train_raises run with
  | None =>
      (ETrain careamist a
         :: map EPut (callback_puts run)
         ++ [EPut (mkTrainUpdate STATE (VState DONE))],
       Returned tt)
  | Some (Exc e) =>
      (ETrain careamist a
         :: map EPut (callback_puts run)
         ++ [EPut (mkTrainUpdate EXCEPTION (VException e));
             EPut (mkTrainUpdate STATE (VState DONE))],
       Returned tt)
  | Some b => (ETrain careamist a :: map EPut (callback_puts run), Raised b)
  end.
Proof.
  unfold train_and_finish, try_except_Exception, call_train, bind,
    queue_put, emit.
  simpl.
  destruct (train_raises (careamist_train careamist a)) as [[e| | |]|];
    simpl; rewrite <- ?app_assoc; reflexivity.
Qed.

(** [_train] by the way each of its stages ends. *)
Lemma _train_eq (config_signal : TrainConfigurationSignal)
    (careamist : option CAREamist) :
  _train config_signal careamist =
  match create_configuration config_signal with
  | Raised b => ([], Raised b)
  | Returned config =>
      match the_careamist config careamist with
      | Raised b => ([], Raised b)
      | Returned c' =>
          let registered := EPut (mkTrainUpdate CAREAMIST (VCareamist c')) in
          match format_data config_signal with
          | (t, Raised b) => (registered :: t, Raised b)
          | (t, Returned Return) => (registered :: t, Returned tt)
          | (t, Returned (Fallthrough a)) =>
              (registered :: t ++ fst (train_and_finish c' a),
               snd (train_and_finish c' a))
          end
      end
  end.
Proof.
  unfold _train, the_careamist, bind, lift, ret, queue_put, emit,
    layer_eq_str.
  destruct (create_configuration config_signal) as [config|b];
    [|reflexivity].
  simpl.
  destruct careamist as [c0|]; simpl.
  - destruct (format_data config_signal) as [t [[|a]|b]]; simpl;
      rewrite ?app_nil_r; try reflexivity.
    destruct (train_and_finish _ a); reflexivity.
  - destruct (CAREamist_init config) as [c'|b]; [|reflexivity].
    simpl.
    destruct (format_data config_signal) as [t [[|a]|b]]; simpl;
      rewrite ?app_nil_r; try reflexivity.
    destruct (train_and_finish _ a); reflexivity.
Qed.

(** The data block when it falls through to the training call: it has
    put nothing on the queue, and the sources are as selected. *)
Lemma format_data_fallthrough (config_signal : TrainConfigurationSignal)
    (t : list Event) (a : TrainArgs) :
  format_data config_signal = (t, Returned (Fallthrough a)) ->
  t = []
  /\ if load_from_disk config_signal then
       path_train config_signal <> ""%string
       /\ train_source a = SrcPath (path_train config_signal)
       /\ val_source a =
            (if String.eqb (path_val config_signal) ""
                || String.eqb (path_train config_signal)
                     (path_val config_signal)
             then None
             else Some (SrcPath (path_val config_signal)))
     else
       exists l eq,
         layer_train config_signal = Some l
         /\ train_source a = SrcData (data l)
         /\ data_eq_truth (data l) (option_map data (layer_val config_signal))
              = Returned eq
         /\ val_source a =
              (if eq then None
               else option_map (fun v => SrcData (data v))
                      (layer_val config_signal)).
Proof.
  unfold format_data, bind, lift, ret, _push_exception, queue_put, emit,
    getattr_data, str_eq_opt.
  destruct (load_from_disk config_signal).
  - destruct (String.eqb (path_train config_signal) "") eqn:Et;
      [simpl; discriminate|].
    apply String.eqb_neq in Et.
    destruct (String.eqb (path_val config_signal) "") eqn:Ev; simpl.
    + destruct (algorithm_neb (algorithm config_signal) N2V).
      * destruct (String.eqb (path_train_target config_signal) "");
          simpl; [discriminate|].
        intros [= <- <-]. simpl. auto.
      * intros [= <- <-]. simpl. auto.
    + destruct (String.eqb (path_train config_signal)
                  (path_val config_signal)) eqn:Etv; simpl.
      * destruct (algorithm_neb (algorithm config_signal) N2V).
        -- destruct (String.eqb (path_train_target config_signal) "");
             simpl; [discriminate|].
           intros [= <- <-]. simpl. auto.
        -- intros [= <- <-]. simpl. auto.
      * destruct (algorithm_neb (algorithm config_signal) N2V).
        -- destruct (String.eqb (path_train_target config_signal) "");
             simpl; [discriminate|].
           intros [= <- <-]. simpl. auto.
        -- intros [= <- <-]. simpl. auto.
  - destruct (layer_train config_signal) as [l|]; simpl; [|discriminate].
    destruct (data_eq_truth (data l)
                match layer_val config_signal with
                | Some l0 => Some (data l0)
                | None => None
                end) as [eq|b] eqn:Eeq; simpl; [|discriminate].
    destruct (algorithm_neb (algorithm config_signal) N2V).
    + destruct (layer_train_target config_signal) as [tg|]; simpl;
        [|discriminate].
      intros [= <- <-]. split; [reflexivity|]. exists l, eq. simpl.
      repeat split; auto.
      destruct eq, (layer_val config_signal); reflexivity.
    + simpl. intros [= <- <-]. split; [reflexivity|]. exists l, eq. simpl.
      repeat split; auto.
      destruct eq, (layer_val config_signal); reflexivity.
Qed.

Lemma format_data_only_puts (config_signal : TrainConfigurationSignal)
    (c : CAREamist) (a : TrainArgs) :
  ~ In (ETrain c a) (fst (format_data config_signal)).
Proof.
  unfold format_data, bind, lift, ret, _push_exception, queue_put, emit,
    getattr_data.
  destruct (load_from_disk config_signal).
  - destruct (String.eqb (path_train config_signal) "");
      [simpl; intuition discriminate|].
    destruct (algorithm_neb (algorithm config_signal) N2V);
      [|simpl; tauto].
    destruct (String.eqb (path_train_target config_signal) ""); simpl;
      intuition discriminate.
  - destruct (layer_train config_signal) as [l|]; simpl;
      [|intuition discriminate].
    destruct (data_eq_truth (data l) _) as [eq|b]; simpl; [|tauto].
    destruct (algorithm_neb (algorithm config_signal) N2V);
      [|simpl; tauto].
    destruct (layer_train_target config_signal); simpl;
      intuition discriminate.
Qed.

Lemma train_and_finish_calls_once (c c' : CAREamist) (a a' : TrainArgs) :
  In (ETrain c' a') (fst (train_and_finish c a)) -> c' = c /\ a' = a.
Proof.
  rewrite train_and_finish_eq. simpl.
  destruct (train_raises (careamist_train c a)) as [[e| | |]|]; simpl;
    rewrite ?in_app_iff; simpl;
    intros Hin; decompose [or] Hin; clear Hin;
    try discriminate; try tauto;
    try (exfalso; eapply not_in_map_EPut; eassumption);
    match goal with E : ETrain _ _ = ETrain _ _ |- _ =>
      injection E as -> -> end; auto.
Qed.

(** A run of [_train] that reaches the call [careamist.train(..)]. *)
Lemma _train_reaches (config_signal : TrainConfigurationSignal)
    (careamist : option CAREamist) (c' : CAREamist) (a : TrainArgs) :
  In (ETrain c' a) (fst (_train config_signal careamist)) ->
  exists config,
    create_configuration config_signal = Returned config
    /\ the_careamist config careamist = Returned c'
    /\ format_data config_signal = ([], Returned (Fallthrough a))
    /\ _train config_signal careamist =
         (EPut (mkTrainUpdate CAREAMIST (VCareamist c'))
            :: fst (train_and_finish c' a),
          snd (train_and_finish c' a)).
Proof.
  rewrite _train_eq.
  destruct (create_configuration config_signal) as [config|b];
    [|simpl; tauto].
  destruct (the_careamist config careamist) as [c1|b] eqn:Ec;
    [|simpl; tauto].
  pose proof (format_data_only_puts config_signal c' a) as Hno.
  destruct (format_data config_signal) as [t [[|a1]|b]] eqn:Ef; simpl in *.
  - intros [E | E]; [discriminate | tauto].
  - destruct (format_data_fallthrough _ _ _ Ef) as [-> _]. simpl.
    intros [E | E]; [discriminate|].
    apply train_and_finish_calls_once in E as [-> ->].
    exists config. auto.
  - intros [E | E]; [discriminate | tauto].
Qed.

(** C2. On every run of [_train] that reaches the call
    [careamist.train(..)]: when the call raises an exception [e] (an
    instance of [Exception]), [_train] returns, after the call it puts
    [TrainUpdate(EXCEPTION, e)] and then [TrainUpdate(STATE, DONE)],
    which are its last two events; when the call returns,
    [TrainUpdate(STATE, DONE)] is the last event and [_train] returns.
    (What is raised and is no instance of [Exception] passes through
    the [except] clause.) *)
Theorem _train_forwards_exception_then_done
    (config_signal : TrainConfigurationSignal)
    (careamist : option CAREamist) (c' : CAREamist) (a : TrainArgs) :
  In (ETrain c' a) (fst (_train config_signal careamist)) ->
  match train_raises (careamist_train c' a) with
  | Some (Exc e) =>
      snd (_train config_signal careamist) = Returned tt
      /\ exists pre,
           In (ETrain c' a) pre
           /\ fst (_train config_signal careamist)
              = pre ++ [EPut (mkTrainUpdate EXCEPTION (VException e));
                        EPut (mkTrainUpdate STATE (VState DONE))]
  | None =>
      snd (_train config_signal careamist) = Returned tt
      /\ exists pre,
           In (ETrain c' a) pre
           /\ fst (_train config_signal careamist)
              = pre ++ [EPut (mkTrainUpdate STATE (VState DONE))]
  | Some b => snd (_train config_signal careamist) = Raised b
  end.
Proof.
  intros Hin. destruct (_train_reaches _ _ _ _ Hin) as (config & _ & _ & _ & ->).
  rewrite train_and_finish_eq. simpl.
  destruct (train_raises (careamist_train c' a)) as [[e| | |]|]; simpl;
    try reflexivity.
  - split; [reflexivity|].
    exists (EPut (mkTrainUpdate CAREAMIST (VCareamist c'))
              :: ETrain c' a :: map EPut (callback_puts (careamist_train c' a))).
    simpl. auto.
  - split; [reflexivity|].
    exists (EPut (mkTrainUpdate CAREAMIST (VCareamist c'))
              :: ETrain c' a :: map EPut (callback_puts (careamist_train c' a))).
    simpl. auto.
Qed.

(** C5. On every run of [_train] that reaches the call
    [careamist.train(..)]: with [load_from_disk] true the argument
    [train_source] is the path string [config_signal.path_train]; with
    [load_from_disk] false a training layer is selected and
    [train_source] is its [.data]. *)
Theorem _train_passes_selected_train_source
    (config_signal : TrainConfigurationSignal)
    (careamist : option CAREamist) (c' : CAREamist) (a : TrainArgs) :
  In (ETrain c' a) (fst (_train config_signal careamist)) ->
  if load_from_disk config_signal then
    train_source a = SrcPath (path_train config_signal)
  else
    exists l,
      layer_train config_signal = Some l /\ train_source a = SrcData (data l).
Proof.
  intros Hin. destruct (_train_reaches _ _ _ _ Hin) as (config & _ & _ & Hf & _).
  apply format_data_fallthrough in Hf as [_ Hf].
  destruct (load_from_disk config_signal).
  - apply Hf.
  - destruct Hf as (l & eq & Hl & Hs & _). eauto.
Qed.

(** C6. On every run of [_train] that reaches the call
    [careamist.train(..)], [val_source] is never the training data:
    from disk, [val_source] is not the path passed as [train_source],
    and it is [None] when no validation path is given or the validation
    path is the training path; from layers, [val_source] is never data
    that Python's [==] finds equal to the training data, and it is
    [None] when no validation layer is selected or the validation data
    compare equal to the training data. *)
Theorem _train_never_validates_on_train_source
    (config_signal : TrainConfigurationSignal)
    (careamist : option CAREamist) (c' : CAREamist) (a : TrainArgs) :
  In (ETrain c' a) (fst (_train config_signal careamist)) ->
  if load_from_disk config_signal then
    val_source a <> Some (train_source a)
    /\ (path_val config_signal = ""%string
        \/ path_val config_signal = path_train config_signal ->
        val_source a = None)
  else
    exists l,
      layer_train config_signal = Some l
      /\ (forall v,
            val_source a = Some (SrcData v) ->
            data_eq_truth (data l) (Some v) = Returned false)
      /\ (forall p, val_source a <> Some (SrcPath p))
      /\ (layer_val config_signal = None
          \/ (exists v,
                layer_val config_signal = Some v
                /\ data_eq_truth (data l) (Some (data v)) = Returned true) ->
          val_source a = None).
Proof.
  intros Hin. destruct (_train_reaches _ _ _ _ Hin) as (config & _ & _ & Hf & _).
  apply format_data_fallthrough in Hf as [_ Hf].
  destruct (load_from_disk config_signal).
  - destruct Hf as (Hne & Hs & Hv). rewrite Hs, Hv. split.
    + destruct (String.eqb (path_val config_signal) ""); simpl;
        [discriminate|].
      destruct (String.eqb (path_train config_signal)
                  (path_val config_signal)) eqn:E; [discriminate|].
      apply String.eqb_neq in E. congruence.
    + intros [E | E]; rewrite E; [reflexivity|].
      rewrite String.eqb_refl, orb_true_r. reflexivity.
  - destruct Hf as (l & eq & Hl & Hs & Heq & Hv). exists l.
    split; [exact Hl|]. rewrite Hv.
    destruct (layer_val config_signal) as [lv|]; simpl in *.
    + destruct eq; (split; [|split]).
      * discriminate.
      * discriminate.
      * reflexivity.
      * intros v [= <-]. exact Heq.
      * discriminate.
      * intros [E | (v & [= <-] & E)]; congruence.
    + destruct eq; (split; [|split]); discriminate || reflexivity.
Qed.

(** C9. When an existing CAREamist [c0] is passed to [_train] and the
    run reaches the call [careamist.train(..)], the CAREamist the call
    is made on is [c0] with [cfg.training_config.num_epochs] set to the
    [num_epochs] of the configuration just created; the rest of its
    training configuration, of its configuration and of the CAREamist
    is what it was. *)
Theorem _train_only_updates_num_epochs
    (config_signal : TrainConfigurationSignal)
    (c0 c' : CAREamist) (a : TrainArgs) :
  In (ETrain c' a) (fst (_train config_signal (Some c0))) ->
  exists config,
    create_configuration config_signal = Returned config
    /\ num_epochs (training_config (cfg c'))
       = num_epochs (training_config config)
    /\ training_other (training_config (cfg c'))
       = training_other (training_config (cfg c0))
    /\ config_other (cfg c') = config_other (cfg c0)
    /\ careamist_other c' = careamist_other c0.
Proof.
  intros Hin. destruct (_train_reaches _ _ _ _ Hin) as (config & Hc & Hs & _).
  exists config. split; [exact Hc|].
  simpl in Hs. injection Hs as <-. simpl. auto.
Qed.


(** Without a training layer the data block puts its [ValueError] and
    goes on to read [layer_train.data]. *)
Lemma format_data_without_training_layer
    (config_signal : TrainConfigurationSignal) :
  load_from_disk config_signal = false ->
  layer_train config_signal = None ->
  format_data config_signal =
  ([EPut (mkTrainUpdate EXCEPTION
            (VException
               (mkException ValueError "Training data path is empty.")))],
   Raised (Exc (mkException AttributeError
                  "'NoneType' object has no attribute 'data'"))).
Proof.
  intros Hd Hl. unfold format_data. rewrite Hd, Hl. reflexivity.
Qed.


(** [_train] without a training layer, for any collaborators: the
    [ValueError] is put and [AttributeError] leaves [_train]. *)
Lemma _train_without_training_layer
    (config_signal : TrainConfigurationSignal)
    (careamist : option CAREamist) (config : Configuration) (c' : CAREamist) :
  create_configuration config_signal = Returned config ->
  the_careamist config careamist = Returned c' ->
  load_from_disk config_signal = false ->
  layer_train config_signal = None ->
  _train config_signal careamist =
  ([EPut (mkTrainUpdate CAREAMIST (VCareamist c'));
    EPut (mkTrainUpdate EXCEPTION
            (VException
               (mkException ValueError "Training data path is empty.")))],
   Raised (Exc (mkException AttributeError
                  "'NoneType' object has no attribute 'data'"))).
Proof.
  intros Hc Hk Hd Hl.
  rewrite _train_eq, Hc, Hk, (format_data_without_training_layer _ Hd Hl).
  reflexivity.
Qed.

(** When the comparison [train_data == val_data] of line 146 has no truth
    value, what it raises leaves [_train] before any check of the target
    and before the training call. *)
Lemma _train_comparison_raises
    (config_signal : TrainConfigurationSignal)
    (careamist : option CAREamist) (config : Configuration) (c' : CAREamist)
    (l : Layer) (b : BaseException) :
  create_configuration config_signal = Returned config ->
  the_careamist config careamist = Returned c' ->
  load_from_disk config_signal = false ->
  layer_train config_signal = Some l ->
  data_eq_truth (data l) (option_map data (layer_val config_signal))
  = Raised b ->
  _train config_signal careamist =
  ([EPut (mkTrainUpdate CAREAMIST (VCareamist c'))], Raised b).
Proof.
  intros Hc Hk Hd Hl Hb.
  rewrite _train_eq, Hc, Hk.
  unfold format_data, bind, lift, ret, getattr_data.
  rewrite Hd, Hl. unfold option_map in Hb. simpl. rewrite Hb. reflexivity.
Qed.

End TrainFacts.

(** C3. With layers as the source and no training layer selected,
    [_train] registers the CAREamist, puts the update of type EXCEPTION
    with the [ValueError], and then does not return: reading
    [layer_train.data] raises [AttributeError], which leaves [_train];
    [careamist.train] is not called. *)
Theorem _train_without_training_layer_raises :
  @_train _ Samples.working_library Samples.no_layer_signal None =
  ([EPut (mkTrainUpdate CAREAMIST
            (VCareamist Samples.fresh_careamist));
    EPut (mkTrainUpdate EXCEPTION
            (VException
               (mkException ValueError "Training data path is empty.")))],
   Raised (Exc (mkException AttributeError
                  "'NoneType' object has no attribute 'data'"))).
Proof. reflexivity. Qed.

(** Training from a file with a library whose training fails: the
    failure is forwarded and DONE closes the run. *)
Lemma _train_forwards_exception_then_done_witness :
  let c := Samples.fresh_careamist in
  let a := Samples.disk_args in
  let r := @_train _ Samples.failing_library Samples.disk_signal None in
  In (ETrain c a) (fst r)
  /\ snd r = Returned tt
  /\ exists pre,
       In (ETrain c a) pre
       /\ fst r
          = pre ++ [EPut (mkTrainUpdate EXCEPTION
                            (VException Samples.out_of_memory));
                    EPut (mkTrainUpdate STATE (VState DONE))].
Proof.
  intros c a r.
  assert (Hin : In (ETrain c a) (fst r)).
  { right. left. reflexivity. }
  split; [exact Hin|].
  exact (@_train_forwards_exception_then_done _ Samples.failing_library
           Samples.disk_signal None c a Hin).
Defined.

(** Training on layers: the training source is the data of the training
    layer. *)
Lemma _train_passes_selected_train_source_witness :
  let c := Samples.fresh_careamist in
  let a := Samples.layer_args in
  In (ETrain c a)
     (fst (@_train _ Samples.working_library Samples.layer_signal None))
  /\ exists l,
       layer_train Samples.layer_signal = Some l
       /\ train_source a = SrcData (data l).
Proof.
  intros c a.
  assert (Hin : In (ETrain c a)
                  (fst (@_train _ Samples.working_library
                          Samples.layer_signal None))).
  { right. left. reflexivity. }
  split; [exact Hin|].
  exact (@_train_passes_selected_train_source _ Samples.working_library
           Samples.layer_signal None c a Hin).
Defined.

(** Training from a file that is also given for validation: no
    validation source is passed. *)
Lemma _train_never_validates_on_train_source_witness :
  let c := Samples.fresh_careamist in
  let a := Samples.disk_args in
  In (ETrain c a)
     (fst (@_train _ Samples.working_library Samples.disk_signal None))
  /\ val_source a <> Some (train_source a)
  /\ (path_val Samples.disk_signal = ""%string
      \/ path_val Samples.disk_signal = path_train Samples.disk_signal ->
      val_source a = None).
Proof.
  intros c a.
  assert (Hin : In (ETrain c a)
                  (fst (@_train _ Samples.working_library
                          Samples.disk_signal None))).
  { right. left. reflexivity. }
  split; [exact Hin|].
  exact (@_train_never_validates_on_train_source _ Samples.working_library
           Samples.disk_signal None c a Hin).
Defined.

(** Continuing the training of a CAREamist trained for 10 epochs with a
    new configuration of 100 epochs. *)
Lemma _train_only_updates_num_epochs_witness :
  let c := Samples.continued_careamist in
  let a := Samples.disk_args in
  In (ETrain c a)
     (fst (@_train _ Samples.working_library Samples.disk_signal
             (Some Samples.old_careamist)))
  /\ exists config,
       @create_configuration _ Samples.working_library Samples.disk_signal
       = Returned config
       /\ num_epochs (training_config (cfg c))
          = num_epochs (training_config config)
       /\ training_other (training_config (cfg c))
          = training_other (training_config (cfg Samples.old_careamist))
       /\ config_other (cfg c) = config_other (cfg Samples.old_careamist)
       /\ careamist_other c = careamist_other Samples.old_careamist.
Proof.
  intros c a.
  assert (Hin : In (ETrain c a)
                  (fst (@_train _ Samples.working_library Samples.disk_signal
                          (Some Samples.old_careamist)))).
  { right. left. reflexivity. }
  split; [exact Hin|].
  exact (@_train_only_updates_num_epochs _ Samples.working_library
           Samples.disk_signal Samples.old_careamist c a Hin).
Defined.

(* ================================================================== *)
(** * The axes widget *)
(* ================================================================== *)

Import axes_widget.

Lemma getitem_minus_one {A : Type} (l : list A) (x : A) :
  getitem (l ++ [x]) (-1) = Returned x.
Proof.
  unfold getitem, len. rewrite length_app.
  change (List.length [x]) with 1%nat.
  cbv zeta. change (-1 <? 0) with true. cbv iota.
  replace (-1 + Z.of_nat (List.length l + 1))
    with (Z.of_nat (List.length l)) by lia.
  replace (Z.of_nat (List.length l) <? 0) with false
    by (symmetry; apply Z.ltb_ge; lia).
  replace (Z.of_nat (List.length l + 1) <=? Z.of_nat (List.length l))
    with false by (symmetry; apply Z.leb_gt; lia).
  simpl orb. cbv iota.
  rewrite Nat2Z.id, nth_error_app2, Nat.sub_diag by lia. reflexivity.
Qed.

Lemma char_in_spec (c : ascii) (s : string) :
  char_in c s = true <-> In c (list_ascii_of_string s).
Proof.
  unfold char_in. rewrite existsb_exists. split.
  - intros (x & Hx & E). apply Ascii.eqb_eq in E. subst. exact Hx.
  - intros Hc. exists c. split; [exact Hc | apply Ascii.eqb_refl].
Qed.

Lemma str_in_spec (x : string) (l : list string) :
  str_in x l = true <-> In x l.
Proof.
  unfold str_in. rewrite existsb_exists. split.
  - intros (y & Hy & E). apply String.eqb_eq in E. subst. exact Hy.
  - intros Hx. exists x. split; [exact Hx | apply String.eqb_refl].
Qed.

Lemma no_chars_empty (s : string) : list_ascii_of_string s = [] -> s = ""%string.
Proof. destruct s; [reflexivity | discriminate]. Qed.

(** [validate] by the last character of [value]. *)
Lemma validate_eq (self : LettersValidator.t) (value : string) (pos : Z) :
  LettersValidator.validate self value pos =
  match rev (list_ascii_of_string value) with
  | [] => Returned (Intermediate, value, pos)
  | last :: _ =>
      if char_in last (LettersValidator._options self)
      then Returned (Acceptable, value, pos)
      else Returned (Invalid, value, pos)
  end.
Proof.
  unfold LettersValidator.validate, str_getitem.
  destruct (list_ascii_of_string value) as [|c l] eqn:El.
  - apply no_chars_empty in El. subst. reflexivity.
  - destruct (@exists_last _ (c :: l)) as (front & last & E); [discriminate|].
    rewrite E, rev_app_distr, getitem_minus_one. simpl rev. simpl app.
    replace (len (front ++ [last]) >? 0) with true.
    + destruct (char_in last (LettersValidator._options self)); reflexivity.
    + unfold len. rewrite length_app. simpl. symmetry.
      apply Z.gtb_lt. lia.
Qed.

(** C8. [LettersValidator.validate] always returns, with [value] and
    [pos] as given; the state is Acceptable exactly when [value] has a
    last character and that character is among the options, Intermediate
    exactly when [value] is the empty string, and Invalid exactly when
    [value] has a last character that is not among the options. *)
Theorem validate_by_last_character
    (self : LettersValidator.t) (value : string) (pos : Z) :
  exists st,
    LettersValidator.validate self value pos = Returned (st, value, pos)
    /\ (st = Acceptable <->
        exists front last,
          list_ascii_of_string value = front ++ [last]
          /\ In last (list_ascii_of_string (LettersValidator._options self)))
    /\ (st = Intermediate <-> value = ""%string)
    /\ (st = Invalid <->
        exists front last,
          list_ascii_of_string value = front ++ [last]
          /\ ~ In last (list_ascii_of_string (LettersValidator._options self))).
Proof.
  rewrite validate_eq.
  destruct (list_ascii_of_string value) as [|c l] eqn:El.
  - apply no_chars_empty in El. subst. simpl. exists Intermediate.
    split; [reflexivity|]. repeat split; try discriminate; auto.
    + intros (front & last & E & _). destruct front; discriminate.
    + intros (front & last & E & _). destruct front; discriminate.
  - assert (Hne : value <> ""%string) by (intros ->; discriminate).
    destruct (@exists_last _ (c :: l)) as (front & last & E); [discriminate|].
    rewrite E, rev_app_distr. simpl.
    destruct (char_in last (LettersValidator._options self)) eqn:Ec.
    + apply char_in_spec in Ec. exists Acceptable.
      split; [reflexivity|]. repeat split; try discriminate; eauto.
      * intros ->. congruence.
      * intros (front' & last' & E' & Hn).
        apply app_inj_tail in E' as [_ <-]. contradiction.
    + assert (Hn : ~ In last (list_ascii_of_string (LettersValidator._options self))).
      { intros Hi. apply char_in_spec in Hi. congruence. }
      exists Invalid.
      split; [reflexivity|]. repeat split; try discriminate; eauto.
      * intros (front' & last' & E' & Hi).
        apply app_inj_tail in E' as [_ <-]. contradiction.
      * intros ->. congruence.
Qed.

Section WidgetFacts.
Context `{AxesRules}.

(** C7. After [_validate_text], [is_text_valid] is true exactly when
    [are_axes_valid] holds of the text and the uppercased text is in
    [filter_dimensions(n_axes, is_3D)]; the text colour is red exactly
    when [are_axes_valid] fails, orange exactly when it holds and the
    uppercased text is not in [filter_dimensions(n_axes, is_3D)], and
    white exactly when both hold; the text, [n_axes] and [is_3D] are
    untouched; and [is_valid] runs [_validate_text] and returns the
    resulting [is_text_valid]. *)
Theorem _validate_text_sets_flag_and_colour (self : AxesWidget) :
  let after := _validate_text self in
  let valid := are_axes_valid (text self) in
  let accepted :=
    In (upper (text self)) (filter_dimensions (n_axes self) (is_3D self)) in
  (is_text_valid after = true <-> valid = true /\ accepted)
  /\ (styleSheet after = "color: red;"%string <-> valid = false)
  /\ (styleSheet after = "color: orange;"%string <->
      valid = true /\ ~ accepted)
  /\ (styleSheet after = "color: white;"%string <-> valid = true /\ accepted)
  /\ text after = text self
  /\ n_axes after = n_axes self
  /\ is_3D after = is_3D self
  /\ is_valid self = (after, is_text_valid after).
Proof.
  unfold is_valid, _validate_text, get_axes.
  pose proof (str_in_spec (upper (text self))
                (filter_dimensions (n_axes self) (is_3D self))) as Hin.
  destruct (are_axes_valid (text self)).
  - destruct (str_in _ _); simpl; repeat split;
      try discriminate; try tauto; intuition discriminate.
  - simpl. repeat split; try discriminate; try tauto; intuition discriminate.
Qed.

End WidgetFacts.

(** C10. For every [n_axes] that passes the assertion of the constructor
    ([0 < n_axes <= 6]) and either value of [is_3D], [get_default_text]
    returns, without an [IndexError], an entry of its table of five
    defaults; and for [2 <= n_axes <= 6] the entry has exactly [n_axes]
    characters. *)
Theorem get_default_text_in_table (self : AxesWidget) :
  init_assertion (n_axes self) = true ->
  exists default,
    get_default_text self = Returned default
    /\ In default (defaults (is_3D self))
    /\ List.length (defaults (is_3D self)) = 5%nat
    /\ (2 <= n_axes self -> Z.of_nat (String.length default) = n_axes self).
Proof.
  unfold init_assertion, get_default_text.
  destruct self as [n d v t s]. simpl.
  intros Hn. apply andb_true_iff in Hn as [Hlo Hhi].
  apply Z.ltb_lt in Hlo. apply Z.leb_le in Hhi.
  assert (Hcases : n = 1 \/ n = 2 \/ n = 3 \/ n = 4 \/ n = 5 \/ n = 6) by lia.
  destruct d; decompose [or] Hcases; subst n; vm_compute;
    eexists; (split; [reflexivity|]);
    (split; [tauto|]); (split; [reflexivity|]);
    intros Hge; solve [reflexivity | exfalso; apply Hge; reflexivity].
Qed.

(** The default text of a widget for four axes in 3D. *)
Lemma get_default_text_in_table_witness :
  let self :=
    {| n_axes := 4; is_3D := true; is_text_valid := true;
       text := ""; styleSheet := "" |} in
  init_assertion (n_axes self) = true
  /\ exists default,
       get_default_text self = Returned default
       /\ In default (defaults (is_3D self))
       /\ List.length (defaults (is_3D self)) = 5%nat
       /\ (2 <= n_axes self -> Z.of_nat (String.length default) = n_axes self).
Proof.
  intros self. split; [reflexivity|].
  apply (get_default_text_in_table self). reflexivity.
Defined.

(* ================================================================== *)
(** * Sample runs *)
(* ================================================================== *)

(** Training from a file with the failing library, thread and generator
    together: the generator yields the CAREamist, the epoch and the
    exception and stops; DONE stays in the queue. *)
Example train_worker_failing_run :
  let w :=
    run 20 (@train_worker _ Samples.failing_library Samples.disk_signal None) in
  yielded w
  = [mkTrainUpdate CAREAMIST (VCareamist Samples.fresh_careamist);
     Samples.epoch 0;
     mkTrainUpdate EXCEPTION (VException Samples.out_of_memory)]
  /\ Queue.items (update_queue w) = [Samples.done]
  /\ pc w = Stopped.
Proof. vm_compute. repeat split; reflexivity. Qed.

(** The same with the working library: everything up to DONE is yielded. *)
Example train_worker_working_run :
  let w :=
    run 20 (@train_worker _ Samples.working_library Samples.disk_signal None) in
  yielded w
  = [mkTrainUpdate CAREAMIST (VCareamist Samples.fresh_careamist);
     Samples.epoch 0; Samples.epoch 1; Samples.done]
  /\ Queue.items (update_queue w) = []
  /\ pc w = Stopped.
Proof. vm_compute. repeat split; reflexivity. Qed.

(** Two-pixel layers: the comparison of the data has no truth value and
    [_train] ends there. *)
Example _train_on_arrays_raises :
  @_train _ Samples.working_library Samples.array_signal None
  = ([EPut (mkTrainUpdate CAREAMIST (VCareamist Samples.fresh_careamist))],
     Raised (Exc (mkException ValueError
       "The truth value of an array with more than one element is ambiguous."))).
Proof. reflexivity. Qed.

Example validate_samples :
  let v := LettersValidator.mk "STCZYX" in
  LettersValidator.validate v "SZY" 3 = Returned (Acceptable, "SZY"%string, 3)
  /\ LettersValidator.validate v "" 0 = Returned (Intermediate, ""%string, 0)
  /\ LettersValidator.validate v "SZa" 3 = Returned (Invalid, "SZa"%string, 3).
Proof. repeat split; reflexivity. Qed.

Example _validate_text_samples :
  let w t := mkAxesWidget 2 false true t "" in
  styleSheet (@_validate_text Samples.rules (w "yx"%string))
  = "color: white;"%string
  /\ styleSheet (@_validate_text Samples.rules (w "yq"%string))
     = "color: red;"%string
  /\ @is_valid Samples.rules (w "yx"%string)
     = (mkAxesWidget 2 false true "yx" "color: white;", true).
Proof. repeat split; reflexivity. Qed.

Example get_default_text_samples :
  get_default_text (mkAxesWidget 1 false true "" "") = Returned "STC?YX"%string
  /\ get_default_text (mkAxesWidget 3 true true "" "") = Returned "ZYX"%string
  /\ get_default_text (mkAxesWidget 7 true true "" "")
     = Raised (Exc (mkException IndexError "list index out of range")).
Proof. repeat split; reflexivity. Qed.

(* ================================================================== *)
(** * More on the thread body *)
(* ================================================================== *)

Section TrainArguments.
Context `{Library}.

(** The data block ends with a [return] only after putting a
    [ValueError]. *)
Lemma format_data_return (config_signal : TrainConfigurationSignal)
    (t : list Event) :
  format_data config_signal = (t, Returned Return) ->
  exists msg,
    t = [EPut (mkTrainUpdate EXCEPTION
                 (VException (mkException ValueError msg)))].
Proof.
  unfold format_data, bind, lift, ret, _push_exception, queue_put, emit,
    getattr_data.
  destruct (load_from_disk config_signal).
  - destruct (String.eqb (path_train config_signal) "").
    { simpl. intros [= <-]. eauto. }
    destruct (algorithm_neb (algorithm config_signal) N2V);
      [|discriminate].
    destruct (String.eqb (path_train_target config_signal) ""); simpl;
      [|discriminate].
    intros [= <-]. eauto.
  - destruct (layer_train config_signal) as [l|]; simpl; [|discriminate].
    destruct (data_eq_truth (data l) _) as [eq|b]; simpl; [|discriminate].
    destruct (algorithm_neb (algorithm config_signal) N2V);
      [|discriminate].
    destruct (layer_train_target config_signal); simpl; [discriminate|].
    intros [= <-]. eauto.
Qed.

(** The targets the data block hands to the training call. *)
Lemma format_data_targets (config_signal : TrainConfigurationSignal)
    (t : list Event) (a : TrainArgs) :
  format_data config_signal = (t, Returned (Fallthrough a)) ->
  if algorithm_neb (algorithm config_signal) N2V then
    if load_from_disk config_signal then
      path_train_target config_signal <> ""%string
      /\ train_target a = Some (SrcPath (path_train_target config_signal))
      /\ val_target a =
           match val_source a with
           | Some _ =>
               if String.eqb (path_val_target config_signal) "" then None
               else Some (SrcPath (path_val_target config_signal))
           | None => None
           end
    else
      exists l,
        layer_train_target config_signal = Some l
        /\ train_target a = Some (SrcData (data l))
        /\ val_target a =
             match val_source a with
             | Some _ =>
                 option_map (fun v => SrcData (data v))
                   (layer_val_target config_signal)
             | None => None
             end
  else train_target a = None /\ val_target a = None.
Proof.
  unfold format_data, bind, lift, ret, _push_exception, queue_put, emit,
    getattr_data, str_eq_opt.
  destruct (load_from_disk config_signal).
  - destruct (String.eqb (path_train config_signal) "") eqn:Et;
      [simpl; discriminate|].
    destruct (algorithm_neb (algorithm config_signal) N2V).
    + destruct (String.eqb (path_train_target config_signal) "") eqn:Eg;
        simpl; [discriminate|].
      apply String.eqb_neq in Eg.
      intros [= <- <-]. simpl. split; [exact Eg|]. split; [reflexivity|].
      destruct (String.eqb (path_val config_signal) ""); simpl;
        [reflexivity|].
      destruct (String.eqb (path_train config_signal)
                  (path_val config_signal)); simpl; [reflexivity|].
      destruct (String.eqb (path_val_target config_signal) ""); reflexivity.
    + intros [= <- <-]. simpl. auto.
  - destruct (layer_train config_signal) as [l|]; simpl; [|discriminate].
    destruct (data_eq_truth (data l) _) as [eq|b]; simpl; [|discriminate].
    destruct (algorithm_neb (algorithm config_signal) N2V).
    + destruct (layer_train_target config_signal) as [tg|]; simpl;
        [|discriminate].
      intros [= <- <-]. exists tg. simpl.
      split; [reflexivity|]. split; [reflexivity|].
      destruct eq, (layer_val config_signal),
        (layer_val_target config_signal); reflexivity.
    + simpl. intros [= <- <-]. simpl. auto.
Qed.

Lemma algorithm_neb_N2V (x : SupportedAlgorithm) :
  algorithm_neb x N2V = true <-> x <> N2V.
Proof.
  destruct x; simpl; split; congruence.
Qed.

(** With Noise2Void no target is handed to the training call. *)
Theorem _train_n2v_passes_no_targets
    (config_signal : TrainConfigurationSignal)
    (careamist : option CAREamist) (c' : CAREamist) (a : TrainArgs) :
  In (ETrain c' a) (fst (_train config_signal careamist)) ->
  algorithm config_signal = N2V ->
  train_target a = None /\ val_target a = None.
Proof.
  intros Hin Ha.
  destruct (_train_reaches _ _ _ _ Hin) as (config & _ & _ & Hf & _).
  apply format_data_targets in Hf. rewrite Ha in Hf. exact Hf.
Qed.

(** With another algorithm the training call gets the selected training
    target: the target path, which is not empty, or the data of the
    target layer, which is selected. *)
Theorem _train_passes_selected_train_target
    (config_signal : TrainConfigurationSignal)
    (careamist : option CAREamist) (c' : CAREamist) (a : TrainArgs) :
  In (ETrain c' a) (fst (_train config_signal careamist)) ->
  algorithm config_signal <> N2V ->
  if load_from_disk config_signal then
    path_train_target config_signal <> ""%string
    /\ train_target a = Some (SrcPath (path_train_target config_signal))
  else
    exists l,
      layer_train_target config_signal = Some l
      /\ train_target a = Some (SrcData (data l)).
Proof.
  intros Hin Ha.
  destruct (_train_reaches _ _ _ _ Hin) as (config & _ & _ & Hf & _).
  apply format_data_targets in Hf.
  apply algorithm_neb_N2V in Ha. rewrite Ha in Hf.
  destruct (load_from_disk config_signal).
  - tauto.
  - destruct Hf as (l & Hl & Ht & _). eauto.
Qed.

(** A validation target is handed over only together with a validation
    source. *)
Theorem _train_val_target_needs_val_source
    (config_signal : TrainConfigurationSignal)
    (careamist : option CAREamist) (c' : CAREamist) (a : TrainArgs) :
  In (ETrain c' a) (fst (_train config_signal careamist)) ->
  val_source a = None -> val_target a = None.
Proof.
  intros Hin Hv.
  destruct (_train_reaches _ _ _ _ Hin) as (config & _ & _ & Hf & _).
  apply format_data_targets in Hf. rewrite Hv in Hf.
  destruct (algorithm_neb (algorithm config_signal) N2V).
  - destruct (load_from_disk config_signal).
    + tauto.
    + destruct Hf as (l & _ & _ & Ht). exact Ht.
  - tauto.
Qed.

(** A validation that is selected and differs from the training data is
    handed over as it is: the validation path, or the data of the
    validation layer. *)
Theorem _train_passes_distinct_validation
    (config_signal : TrainConfigurationSignal)
    (careamist : option CAREamist) (c' : CAREamist) (a : TrainArgs) :
  In (ETrain c' a) (fst (_train config_signal careamist)) ->
  if load_from_disk config_signal then
    path_val config_signal <> ""%string ->
    path_val config_signal <> path_train config_signal ->
    val_source a = Some (SrcPath (path_val config_signal))
  else
    forall l v,
      layer_train config_signal = Some l ->
      layer_val config_signal = Some v ->
      data_eq_truth (data l) (Some (data v)) = Returned false ->
      val_source a = Some (SrcData (data v)).
Proof.
  intros Hin.
  destruct (_train_reaches _ _ _ _ Hin) as (config & _ & _ & Hf & _).
  apply format_data_fallthrough in Hf as [_ Hf].
  destruct (load_from_disk config_signal).
  - destruct Hf as (_ & _ & ->). intros Hv Hne.
    apply String.eqb_neq in Hv. rewrite Hv. simpl.
    destruct (String.eqb (path_train config_signal)
                (path_val config_signal)) eqn:E; [|reflexivity].
    apply String.eqb_eq in E. congruence.
  - destruct Hf as (l0 & eq & Hl & _ & Heq & ->).
    intros l v Hl' Hv Hfalse. rewrite Hv in *. simpl in *.
    assert (l0 = l) by congruence. subst l0.
    rewrite Hfalse in Heq. injection Heq as <-. reflexivity.
Qed.

(** The training call never gets an empty path, neither as a source nor
    as a target. *)
Theorem _train_never_passes_empty_path
    (config_signal : TrainConfigurationSignal)
    (careamist : option CAREamist) (c' : CAREamist) (a : TrainArgs) :
  In (ETrain c' a) (fst (_train config_signal careamist)) ->
  train_source a <> SrcPath ""
  /\ val_source a <> Some (SrcPath "")
  /\ train_target a <> Some (SrcPath "")
  /\ val_target a <> Some (SrcPath "").
Proof.
  intros Hin.
  destruct (_train_reaches _ _ _ _ Hin) as (config & _ & _ & Hf & _).
  pose proof (format_data_targets _ _ _ Hf) as Ht.
  apply format_data_fallthrough in Hf as [_ Hf].
  destruct (load_from_disk config_signal).
  - destruct Hf as (Hne & Hs & Hv).
    assert (Hval : val_source a <> Some (SrcPath "")).
    { rewrite Hv.
      destruct (String.eqb (path_val config_signal) "") eqn:E; simpl;
        [discriminate|].
      apply String.eqb_neq in E.
      destruct (String.eqb _ _); [discriminate | congruence]. }
    split; [rewrite Hs; congruence|]. split; [exact Hval|].
    destruct (algorithm_neb (algorithm config_signal) N2V).
    + destruct Ht as (Hg & -> & ->). split; [congruence|].
      destruct (val_source a); [|discriminate].
      destruct (String.eqb (path_val_target config_signal) "") eqn:E;
        [discriminate|].
      apply String.eqb_neq in E. congruence.
    + destruct Ht as [-> ->]. split; discriminate.
  - destruct Hf as (l & eq & _ & Hs & _ & Hv).
    split; [rewrite Hs; discriminate|].
    split.
    { rewrite Hv. destruct eq, (layer_val config_signal); discriminate. }
    destruct (algorithm_neb (algorithm config_signal) N2V).
    + destruct Ht as (tg & _ & -> & ->). split; [discriminate|].
      destruct (val_source a), (layer_val_target config_signal);
        discriminate.
    + destruct Ht as [-> ->]. split; discriminate.
Qed.

End TrainArguments.

Lemma _train_n2v_passes_no_targets_witness :
  In (ETrain Samples.fresh_careamist Samples.disk_args)
     (fst (@_train _ Samples.working_library Samples.disk_signal None))
  /\ algorithm Samples.disk_signal = N2V
  /\ train_target Samples.disk_args = None
  /\ val_target Samples.disk_args = None.
Proof.
  assert (Hin : In (ETrain Samples.fresh_careamist Samples.disk_args)
                  (fst (@_train _ Samples.working_library
                          Samples.disk_signal None))).
  { right. left. reflexivity. }
  split; [exact Hin|]. split; [reflexivity|].
  exact (@_train_n2v_passes_no_targets _ Samples.working_library
           Samples.disk_signal None _ _ Hin eq_refl).
Defined.

Lemma _train_passes_selected_train_target_witness :
  In (ETrain Samples.fresh_careamist Samples.care_args)
     (fst (@_train _ Samples.working_library Samples.care_signal None))
  /\ algorithm Samples.care_signal <> N2V
  /\ path_train_target Samples.care_signal <> ""%string
  /\ train_target Samples.care_args
     = Some (SrcPath (path_train_target Samples.care_signal)).
Proof.
  assert (Hin : In (ETrain Samples.fresh_careamist Samples.care_args)
                  (fst (@_train _ Samples.working_library
                          Samples.care_signal None))).
  { right. left. reflexivity. }
  assert (Ha : algorithm Samples.care_signal <> N2V) by discriminate.
  split; [exact Hin|]. split; [exact Ha|].
  exact (@_train_passes_selected_train_target _ Samples.working_library
           Samples.care_signal None _ _ Hin Ha).
Defined.

Lemma _train_val_target_needs_val_source_witness :
  In (ETrain Samples.fresh_careamist Samples.layer_args)
     (fst (@_train _ Samples.working_library Samples.layer_signal None))
  /\ val_source Samples.layer_args = None
  /\ val_target Samples.layer_args = None.
Proof.
  assert (Hin : In (ETrain Samples.fresh_careamist Samples.layer_args)
                  (fst (@_train _ Samples.working_library
                          Samples.layer_signal None))).
  { right. left. reflexivity. }
  split; [exact Hin|]. split; [reflexivity|].
  exact (@_train_val_target_needs_val_source _ Samples.working_library
           Samples.layer_signal None _ _ Hin eq_refl).
Defined.

Lemma _train_passes_distinct_validation_witness :
  In (ETrain Samples.fresh_careamist Samples.care_args)
     (fst (@_train _ Samples.working_library Samples.care_signal None))
  /\ val_source Samples.care_args
     = Some (SrcPath (path_val Samples.care_signal)).
Proof.
  assert (Hin : In (ETrain Samples.fresh_careamist Samples.care_args)
                  (fst (@_train _ Samples.working_library
                          Samples.care_signal None))).
  { right. left. reflexivity. }
  split; [exact Hin|].
  apply (@_train_passes_distinct_validation _ Samples.working_library
           Samples.care_signal None _ _ Hin); discriminate.
Defined.

Lemma _train_never_passes_empty_path_witness :
  In (ETrain Samples.fresh_careamist Samples.care_args)
     (fst (@_train _ Samples.working_library Samples.care_signal None))
  /\ train_source Samples.care_args <> SrcPath ""
  /\ val_source Samples.care_args <> Some (SrcPath "")
  /\ train_target Samples.care_args <> Some (SrcPath "")
  /\ val_target Samples.care_args <> Some (SrcPath "").
Proof.
  assert (Hin : In (ETrain Samples.fresh_careamist Samples.care_args)
                  (fst (@_train _ Samples.working_library
                          Samples.care_signal None))).
  { right. left. reflexivity. }
  split; [exact Hin|].
  exact (@_train_never_passes_empty_path _ Samples.working_library
           Samples.care_signal None _ _ Hin).
Defined.

(* ================================================================== *)
(** * More on the messages of the thread *)
(* ================================================================== *)

Section TrainTrace.
Context `{Library}.

Lemma train_count_app (t1 t2 : list Event) :
  train_count (t1 ++ t2) = (train_count t1 + train_count t2)%nat.
Proof.
  induction t1 as [|[u|m|c a] t1 IH]; simpl; rewrite ?IH; reflexivity.
Qed.

Lemma train_count_map_EPut (l : list TrainUpdate) :
  train_count (map EPut l) = O.
Proof.
  induction l as [|u l IH]; simpl; [reflexivity | exact IH].
Qed.

Lemma train_count_none (t : list Event) :
  (forall c a, ~ In (ETrain c a) t) -> train_count t = O.
Proof.
  induction t as [|e t IH]; simpl; intros Hno; [reflexivity|].
  assert (Ht : train_count t = O).
  { apply IH. intros c a Hin. apply (Hno c a). auto. }
  destruct e as [u|m|c a]; [exact Ht | exact Ht |].
  exfalso. apply (Hno c a). auto.
Qed.

Lemma train_and_finish_count (c : CAREamist) (a : TrainArgs) :
  train_count (fst (train_and_finish c a)) = 1%nat.
Proof.
  rewrite train_and_finish_eq. simpl.
  destruct (train_raises (careamist_train c a)) as [[e| | |]|]; simpl;
    rewrite ?train_count_app, train_count_map_EPut; reflexivity.
Qed.

(** Whatever the signal, whatever the library does: one run of
    [_train] calls [careamist.train] at most once. *)
Theorem _train_trains_at_most_once
    (config_signal : TrainConfigurationSignal)
    (careamist : option CAREamist) :
  (train_count (fst (_train config_signal careamist)) <= 1)%nat.
Proof.
  rewrite _train_eq.
  destruct (create_configuration config_signal) as [config|b];
    [|simpl; lia].
  destruct (the_careamist config careamist) as [c'|b]; [|simpl; lia].
  assert (Hno : train_count (fst (format_data config_signal)) = O).
  { apply train_count_none. intros c a. apply format_data_only_puts. }
  destruct (format_data config_signal) as [t [[|a]|b]]; simpl in *;
    rewrite ?train_count_app, ?train_and_finish_count; lia.
Qed.

(** Once the configuration and the CAREamist are there, the first thing
    [_train] does to the outside is to put the CAREamist on the queue,
    whatever happens afterwards; for a CAREamist passed in it is that
    one with the new number of epochs. *)
Theorem _train_registers_careamist_first
    (config_signal : TrainConfigurationSignal)
    (careamist : option CAREamist) (config : Configuration) (c' : CAREamist) :
  create_configuration config_signal = Returned config ->
  the_careamist config careamist = Returned c' ->
  exists rest,
    fst (_train config_signal careamist)
    = EPut (mkTrainUpdate CAREAMIST (VCareamist c')) :: rest
    /\ forall c a, In (ETrain c a) rest -> c = c'.
Proof.
  intros Hc Hk. rewrite _train_eq, Hc, Hk.
  pose proof (format_data_only_puts config_signal) as Hno.
  destruct (format_data config_signal) as [t [[|a]|b]] eqn:Ef; simpl in *.
  - exists t. split; [reflexivity|]. intros c a0 Hin. destruct (Hno _ _ Hin).
  - exists (t ++ fst (train_and_finish c' a)). split; [reflexivity|].
    intros c a0 Hin. apply in_app_iff in Hin as [Hin | Hin].
    + destruct (Hno _ _ Hin).
    + apply train_and_finish_calls_once in Hin. tauto.
  - exists t. split; [reflexivity|]. intros c a0 Hin. destruct (Hno _ _ Hin).
Qed.

(** When [_train] returns, the last update it has put ends the loop of
    the generator: it is the [ValueError] of a missing input or
    [TrainUpdate(STATE, DONE)]. *)
Lemma _train_returns_last_put
    (config_signal : TrainConfigurationSignal)
    (careamist : option CAREamist) :
  snd (_train config_signal careamist) = Returned tt ->
  exists pre last,
    puts (fst (_train config_signal careamist)) = pre ++ [last]
    /\ ((exists msg,
           last = mkTrainUpdate EXCEPTION
                    (VException (mkException ValueError msg)))
        \/ last = mkTrainUpdate STATE (VState DONE))
    /\ ends_loop last = true.
Proof.
  rewrite _train_eq.
  destruct (create_configuration config_signal) as [config|b];
    [|discriminate].
  destruct (the_careamist config careamist) as [c'|b]; [|discriminate].
  destruct (format_data config_signal) as [t [[|a]|b]] eqn:Ef; simpl;
    [| |discriminate].
  - intros _. apply format_data_return in Ef as [msg ->]. simpl.
    exists [mkTrainUpdate CAREAMIST (VCareamist c')].
    eexists. split; [reflexivity|]. split; [eauto | reflexivity].
  - apply format_data_fallthrough in Ef as [-> _]. simpl.
    rewrite train_and_finish_eq. simpl.
    destruct (train_raises (careamist_train c' a)) as [[e| | |]|]; simpl;
      try discriminate; intros _.
    + exists (mkTrainUpdate CAREAMIST (VCareamist c')
                :: callback_puts (careamist_train c' a)
                ++ [mkTrainUpdate EXCEPTION (VException e)]).
      exists (mkTrainUpdate STATE (VState DONE)).
      split; [|split; [auto | reflexivity]].
      rewrite puts_app, puts_map_EPut. simpl. rewrite <- app_assoc.
      reflexivity.
    + exists (mkTrainUpdate CAREAMIST (VCareamist c')
                :: callback_puts (careamist_train c' a)).
      exists (mkTrainUpdate STATE (VState DONE)).
      split; [|split; [auto | reflexivity]].
      rewrite puts_app, puts_map_EPut. reflexivity.
Qed.

(** When the configuration or the CAREamist cannot be created, [_train]
    raises what the failing call raised and has put nothing. *)
Lemma _train_setup_failure_puts_nothing
    (config_signal : TrainConfigurationSignal)
    (careamist : option CAREamist) (b : BaseException) :
  create_configuration config_signal = Raised b
  \/ (exists config,
        create_configuration config_signal = Returned config
        /\ the_careamist config careamist = Raised b) ->
  _train config_signal careamist = ([], Raised b).
Proof.
  rewrite _train_eq.
  intros [-> | (config & -> & ->)]; reflexivity.
Qed.

End TrainTrace.

Lemma _train_registers_careamist_first_witness :
  @create_configuration _ Samples.working_library Samples.disk_signal
  = Returned (Samples.configuration 100)
  /\ @the_careamist _ Samples.working_library (Samples.configuration 100)
       (Some Samples.old_careamist)
     = Returned Samples.continued_careamist
  /\ exists rest,
       fst (@_train _ Samples.working_library Samples.disk_signal
              (Some Samples.old_careamist))
       = EPut (mkTrainUpdate CAREAMIST
                 (VCareamist Samples.continued_careamist)) :: rest
       /\ forall c a, In (ETrain c a) rest -> c = Samples.continued_careamist.
Proof.
  split; [reflexivity|]. split; [reflexivity|].
  exact (@_train_registers_careamist_first _ Samples.working_library
           Samples.disk_signal (Some Samples.old_careamist)
           (Samples.configuration 100) Samples.continued_careamist
           eq_refl eq_refl).
Defined.


(* ================================================================== *)
(** * The thread body and the generator together *)
(* ================================================================== *)

Section WorkerRuns.
Context `{Library}.

Lemma until_last_app_carries (pre rest : list TrainUpdate) :
  Forall carries_on pre -> until_last (pre ++ rest) = pre ++ until_last rest.
Proof.
  induction 1 as [|x pre Hx _ IH]; simpl; [reflexivity|].
  unfold carries_on in Hx. rewrite Hx, IH. reflexivity.
Qed.

Lemma inv_yielded_prefix_until_last (us : list TrainUpdate) (w : World) :
  Inv us w -> exists rest, until_last us = yielded w ++ rest.
Proof.
  intros [Hf Hh _ _ Hp]. rewrite Hf, Hh.
  destruct (pc w) as [|u|u|]; simpl in *.
  - rewrite app_nil_r, until_last_app_carries by assumption. eauto.
  - rewrite <- app_assoc, until_last_app_carries by assumption. eauto.
  - destruct Hp as (pre & -> & Hpre).
    rewrite app_nil_r, <- !app_assoc, until_last_app_carries by assumption.
    simpl. destruct (ends_loop u).
    + exists []. rewrite app_nil_r. reflexivity.
    + eexists. rewrite <- app_assoc. reflexivity.
  - destruct Hp as (pre & u & -> & Hpre & Hu).
    rewrite app_nil_r, <- !app_assoc. simpl.
    rewrite until_last_ends by assumption.
    exists []. rewrite app_nil_r. reflexivity.
Qed.

Lemma stuck_stays (w w' : World) : stuck w -> steps w w' -> w' = w.
Proof.
  intros [Ht Hw]. induction 1 as [|w' w'' _ IH Hs]; [reflexivity|].
  subst w'. destruct Hs; congruence.
Qed.

(** The generator has left its loop only if an update of type
    EXCEPTION, or of type STATE with value DONE, has been put on the
    queue and taken from it; and once nothing can move any more, it has
    left its loop exactly when such an update is among those that were
    put (taken from the queue or still in it), and otherwise it waits in
    [get] on an empty queue with nothing left to be put.  So a thread
    that dies without such an update leaves the generator waiting. *)
Theorem train_worker_stops_iff_ending_update
    (us : list TrainUpdate) (w : World) :
  steps (train_worker_start us) w ->
  (pc w = Stopped -> exists u, In u (dequeued w) /\ exception_or_done u)
  /\ (stuck w ->
      (pc w = Stopped <->
       exists u,
         In u (dequeued w ++ Queue.items (update_queue w))
         /\ exception_or_done u)
      /\ (pc w <> Stopped ->
          pc w = AtGet /\ Queue.items (update_queue w) = []
          /\ to_put w = [])).
Proof.
  intros Hs. pose proof (inv_steps _ _ Hs) as HI.
  assert (Hstop : pc w = Stopped ->
                  exists u, In u (dequeued w) /\ exception_or_done u).
  { intros Epc. destruct HI as [_ Hh _ _ Hp]. rewrite Epc in Hp.
    destruct Hp as (pre & u & Hy & _ & Hu). exists u.
    split; [|apply ends_loop_spec; exact Hu].
    rewrite Hh, Hy. rewrite !in_app_iff. simpl. auto. }
  split; [exact Hstop|].
  intros Hst.
  destruct (inv_stuck_cases _ _ HI Hst)
    as [(Epc & Ei & Et & Hy & Hall) | Epc].
  - split; [|auto]. split.
    + intros E. congruence.
    + intros (u & Hin & Hu). exfalso.
      rewrite Ei, app_nil_r in Hin.
      rewrite (inv_hand _ _ HI), Epc, Hy in Hin. simpl in Hin.
      rewrite app_nil_r in Hin. apply ends_loop_spec in Hu.
      exact (carries_on_no_ending _ _ Hall Hin Hu).
  - split; [|congruence]. split; [|intros _; exact Epc].
    intros _. destruct (Hstop Epc) as (u & Hin & Hu).
    exists u. split; [|exact Hu]. apply in_app_iff. auto.
Qed.

(** When [_train] returns, the last update it has put is the
    [ValueError] of a missing input or [TrainUpdate(STATE, DONE)], and
    the generator of [train_worker] has left its loop whenever nothing
    can move any more: a run of [_train] that returns never leaves the
    generator waiting. *)
Theorem train_worker_stops_when_train_returns
    (config_signal : TrainConfigurationSignal)
    (careamist : option CAREamist) :
  snd (_train config_signal careamist) = Returned tt ->
  (exists pre last,
     puts (fst (_train config_signal careamist)) = pre ++ [last]
     /\ ((exists msg,
            last = mkTrainUpdate EXCEPTION
                     (VException (mkException ValueError msg)))
         \/ last = mkTrainUpdate STATE (VState DONE)))
  /\ forall w,
       steps (train_worker config_signal careamist) w -> stuck w ->
       pc w = Stopped.
Proof.
  intros Hr.
  destruct (_train_returns_last_put _ _ Hr) as (pre & last & Hp & Hl & Hu).
  split; [eauto|].
  intros w Hs Hst. unfold train_worker in Hs.
  pose proof (inv_steps _ _ Hs) as HI.
  destruct (inv_stuck_cases _ _ HI Hst) as [(_ & _ & _ & _ & Hall) | E];
    [|exact E].
  exfalso. apply (carries_on_no_ending _ last Hall); [|exact Hu].
  rewrite Hp, in_app_iff. simpl. auto.
Qed.

(** When the configuration or the CAREamist cannot be created, [_train]
    raises what the failing call raised without a single [put]; the
    generator of [train_worker] then never moves: it yields nothing and
    waits in [get] for good. *)
Theorem train_worker_waits_when_setup_fails
    (config_signal : TrainConfigurationSignal)
    (careamist : option CAREamist) (b : BaseException) :
  create_configuration config_signal = Raised b
  \/ (exists config,
        create_configuration config_signal = Returned config
        /\ the_careamist config careamist = Raised b) ->
  _train config_signal careamist = ([], Raised b)
  /\ forall w,
       steps (train_worker config_signal careamist) w ->
       w = train_worker config_signal careamist
       /\ stuck w /\ pc w = AtGet /\ yielded w = [].
Proof.
  intros Hfail.
  pose proof (_train_setup_failure_puts_nothing _ _ _ Hfail) as Ht.
  split; [exact Ht|].
  assert (Hst : stuck (train_worker config_signal careamist)).
  { unfold train_worker. rewrite Ht. split; reflexivity. }
  intros w Hs. rewrite (stuck_stays _ _ Hst Hs).
  split; [reflexivity|]. split; [exact Hst|].
  unfold train_worker. rewrite Ht. split; reflexivity.
Qed.

(** When the training call raises an exception [e] and no update of its
    callbacks ends the loop, the generator yields the CAREamist, the
    updates of the callbacks and the exception, and leaves its loop: the
    closing [TrainUpdate(STATE, DONE)] is put but never yielded, it stays
    in the queue. *)
Theorem train_worker_never_yields_done_after_exception
    (config_signal : TrainConfigurationSignal)
    (careamist : option CAREamist) (c' : CAREamist) (a : TrainArgs)
    (e : Exception) (w : World) :
  In (ETrain c' a) (fst (_train config_signal careamist)) ->
  train_raises (careamist_train c' a) = Some (Exc e) ->
  Forall carries_on (callback_puts (careamist_train c' a)) ->
  steps (train_worker config_signal careamist) w ->
  ~ In (mkTrainUpdate STATE (VState DONE)) (yielded w)
  /\ (stuck w ->
      yielded w
      = mkTrainUpdate CAREAMIST (VCareamist c')
          :: callback_puts (careamist_train c' a)
          ++ [mkTrainUpdate EXCEPTION (VException e)]
      /\ Queue.items (update_queue w) = [mkTrainUpdate STATE (VState DONE)]
      /\ pc w = Stopped).
Proof.
  intros Hin Hr Hcb Hs.
  set (cb := callback_puts (careamist_train c' a)) in *.
  set (registered := mkTrainUpdate CAREAMIST (VCareamist c')).
  set (failed := mkTrainUpdate EXCEPTION (VException e)).
  set (done := mkTrainUpdate STATE (VState DONE)).
  assert (Hputs : puts (fst (_train config_signal careamist))
                  = (registered :: cb) ++ failed :: [done]).
  { destruct (_train_reaches _ _ _ _ Hin) as (config & _ & _ & _ & ->).
    rewrite train_and_finish_eq. simpl. rewrite Hr. simpl.
    rewrite puts_app, puts_map_EPut. reflexivity. }
  assert (Hpre : Forall carries_on (registered :: cb)).
  { constructor; [reflexivity | exact Hcb]. }
  assert (Hul : until_last (puts (fst (_train config_signal careamist)))
                = (registered :: cb) ++ [failed]).
  { rewrite Hputs. apply until_last_ends; [exact Hpre | reflexivity]. }
  unfold train_worker in Hs. pose proof (inv_steps _ _ Hs) as HI.
  split.
  - destruct (inv_yielded_prefix_until_last _ _ HI) as [rest Hrest].
    rewrite Hul in Hrest. intros Hd.
    assert (Hd' : In done ((registered :: cb) ++ [failed])).
    { rewrite Hrest, in_app_iff. auto. }
    apply in_app_iff in Hd' as [Hd' | [Hd' | []]]; [|discriminate].
    eapply carries_on_no_ending; [exact Hpre | exact Hd' | reflexivity].
  - intros Hst. pose proof (inv_stuck _ _ HI Hst) as Hy. rewrite Hul in Hy.
    assert (Epc : pc w = Stopped).
    { destruct (inv_stuck_cases _ _ HI Hst) as [(_ & _ & _ & _ & Hall) | E];
        [|exact E].
      exfalso. apply (carries_on_no_ending _ failed Hall); [|reflexivity].
      rewrite Hputs, in_app_iff. simpl. auto. }
    split; [exact Hy|]. split; [|exact Epc].
    destruct HI as [Hf Hh Hm _ _]. rewrite Epc in Hh. simpl in Hh.
    rewrite app_nil_r in Hh. rewrite Hh, Hy, Hputs in Hf.
    change ((registered :: cb) ++ [failed; done])
      with ((registered :: cb) ++ [failed] ++ [done]) in Hf.
    rewrite app_assoc in Hf. apply app_inv_head in Hf.
    destruct Hst as [Ht _]. unfold thread_step in Ht.
    destruct (to_put w) as [|u rest].
    + rewrite app_nil_r in Hf. auto.
    + destruct (Queue.items (update_queue w)) as [|x r] eqn:Ei.
      * unfold Queue.put, Queue.full, Queue.qsize, len in Ht.
        rewrite Hm, Ei in Ht. simpl in Ht. discriminate.
      * exfalso. injection Hf as _ Hf. destruct r; discriminate.
Qed.

End WorkerRuns.

Lemma train_worker_stops_iff_ending_update_witness :
  let us := [Samples.stopped; Samples.epoch 0; Samples.epoch 1] in
  let w := run 12 (train_worker_start us) in
  steps (train_worker_start us) w
  /\ stuck w
  /\ yielded w = us
  /\ pc w <> Stopped
  /\ (pc w = AtGet /\ Queue.items (update_queue w) = [] /\ to_put w = []).
Proof.
  intros us w.
  assert (Hs : steps (train_worker_start us) w) by apply run_steps.
  assert (Hst : stuck w) by (split; vm_compute; reflexivity).
  assert (Hpc : pc w <> Stopped) by (vm_compute; discriminate).
  split; [exact Hs|]. split; [exact Hst|].
  split; [vm_compute; reflexivity|].
  split; [exact Hpc|].
  destruct (train_worker_stops_iff_ending_update us w Hs) as [_ Hstuck].
  destruct (Hstuck Hst) as [_ Hwait].
  exact (Hwait Hpc).
Defined.

Lemma train_worker_stops_when_train_returns_witness :
  let r := @_train _ Samples.working_library Samples.no_target_signal None in
  snd r = Returned tt
  /\ (exists pre last,
        puts (fst r) = pre ++ [last]
        /\ ((exists msg,
               last = mkTrainUpdate EXCEPTION
                        (VException (mkException ValueError msg)))
            \/ last = mkTrainUpdate STATE (VState DONE)))
  /\ forall w,
       steps (@train_worker _ Samples.working_library
                Samples.no_target_signal None) w ->
       stuck w -> pc w = Stopped.
Proof.
  intros r. split; [reflexivity|].
  exact (@train_worker_stops_when_train_returns _ Samples.working_library
           Samples.no_target_signal None eq_refl).
Defined.

Lemma train_worker_waits_when_setup_fails_witness :
  let b := Exc (mkException ValueError "invalid configuration") in
  @create_configuration _ Samples.broken_library Samples.disk_signal = Raised b
  /\ @_train _ Samples.broken_library Samples.disk_signal None = ([], Raised b)
  /\ forall w,
       steps (@train_worker _ Samples.broken_library Samples.disk_signal None) w ->
       w = @train_worker _ Samples.broken_library Samples.disk_signal None
       /\ stuck w /\ pc w = AtGet /\ yielded w = [].
Proof.
  intros b. split; [reflexivity|].
  apply (@train_worker_waits_when_setup_fails _ Samples.broken_library).
  left. reflexivity.
Defined.

Lemma train_worker_never_yields_done_after_exception_witness :
  let w :=
    run 20 (@train_worker _ Samples.failing_library Samples.disk_signal None) in
  steps (@train_worker _ Samples.failing_library Samples.disk_signal None) w
  /\ ~ In (mkTrainUpdate STATE (VState DONE)) (yielded w)
  /\ (stuck w ->
      yielded w
      = [mkTrainUpdate CAREAMIST (VCareamist Samples.fresh_careamist);
         Samples.epoch 0;
         mkTrainUpdate EXCEPTION (VException Samples.out_of_memory)]
      /\ Queue.items (update_queue w) = [mkTrainUpdate STATE (VState DONE)]
      /\ pc w = Stopped).
Proof.
  intros w.
  assert (Hs : steps (@train_worker _ Samples.failing_library
                        Samples.disk_signal None) w) by apply run_steps.
  split; [exact Hs|].
  apply (@train_worker_never_yields_done_after_exception
           _ Samples.failing_library Samples.disk_signal None
           Samples.fresh_careamist Samples.disk_args Samples.out_of_memory w).
  - right. left. reflexivity.
  - reflexivity.
  - repeat constructor.
  - exact Hs.
Defined.

(* ================================================================== *)
(** * More on the axes widget *)
(* ================================================================== *)

Section WidgetMore.
Context `{AxesRules}.

(** The three outcomes of a validation. *)
Lemma _validate_text_cases (self : AxesWidget) :
  let accepted :=
    str_in (upper (text self)) (filter_dimensions (n_axes self) (is_3D self)) in
  _validate_text self =
  {| n_axes := n_axes self;
     is_3D := is_3D self;
     is_text_valid := are_axes_valid (text self) && accepted;
     text := text self;
     styleSheet :=
       if are_axes_valid (text self)
       then if accepted then "color: white;" else "color: orange;"
       else "color: red;" |}.
Proof.
  unfold _validate_text, get_axes.
  destruct (are_axes_valid (text self)); [|reflexivity].
  destruct (str_in _ _); reflexivity.
Qed.

(** Validating twice is validating once, so the validation that
    [is_valid] runs changes nothing on a widget whose text has been
    validated, and [is_valid] returns the flag the widget already holds. *)
Theorem is_valid_keeps_validated_widget (self : AxesWidget) :
  let validated := _validate_text self in
  _validate_text validated = validated
  /\ is_valid validated = (validated, is_text_valid validated)
  /\ fst (is_valid (fst (is_valid self))) = fst (is_valid self)
  /\ snd (is_valid (fst (is_valid self))) = snd (is_valid self).
Proof.
  assert (Hidem : _validate_text (_validate_text self) = _validate_text self).
  { rewrite (_validate_text_cases (_validate_text self)).
    rewrite (_validate_text_cases self). simpl. reflexivity. }
  unfold is_valid. simpl. rewrite !Hidem. auto.
Qed.

(** After a validation the style sheet is one of the three colours, and
    the flag [is_text_valid] is true exactly when the colour is white. *)
Theorem _validate_text_flag_iff_white (self : AxesWidget) :
  let validated := _validate_text self in
  (styleSheet validated = "color: red;"%string
   \/ styleSheet validated = "color: orange;"%string
   \/ styleSheet validated = "color: white;"%string)
  /\ (is_text_valid validated = true
      <-> styleSheet validated = "color: white;"%string).
Proof.
  rewrite _validate_text_cases. simpl.
  destruct (are_axes_valid (text self)); simpl.
  - destruct (str_in _ _); simpl; split; auto; split; auto; discriminate.
  - split; auto. split; discriminate.
Qed.

(** Changing the number of axes and changing the 3D flag can be done in
    either order; both keep the text, and the widget is left validated
    for the new number and flag. *)
Theorem update_axes_number_update_is_3D_commute
    (self : AxesWidget) (n : Z) (d : bool) :
  update_is_3D (update_axes_number self n) d
  = update_axes_number (update_is_3D self d) n
  /\ update_is_3D (update_axes_number self n) d
     = _validate_text (mkAxesWidget n d (is_text_valid self) (text self)
                         (styleSheet self)).
Proof.
  unfold update_is_3D, update_axes_number.
  rewrite !_validate_text_cases. simpl. auto.
Qed.

(** The constructor returns exactly when [0 < n_axes <= 6], and raises
    [AssertionError] otherwise, never [IndexError]; the widget it returns
    holds [n_axes] and [is_3D], shows the default text, which is an entry
    of the table, and has that text validated. *)
Theorem __init___returns_iff_assertion (n : Z) (d : bool) :
  (init_assertion n = true <-> 0 < n <= 6)
  /\ if init_assertion n then
       exists default,
         In default (defaults d)
         /\ get_default_text (mkAxesWidget n d true "" "") = Returned default
         /\ __init__ n d
            = Returned (_validate_text (mkAxesWidget n d true default ""))
     else __init__ n d = Raised (Exc (mkException AssertionError "")).
Proof.
  assert (Hspec : init_assertion n = true <-> 0 < n <= 6).
  { unfold init_assertion. rewrite andb_true_iff, Z.ltb_lt, Z.leb_le. tauto. }
  split; [exact Hspec|].
  unfold __init__. destruct (init_assertion n); [|reflexivity].
  assert (Hn : 0 < n <= 6) by (apply Hspec; reflexivity).
  assert (Hc : n = 1 \/ n = 2 \/ n = 3 \/ n = 4 \/ n = 5 \/ n = 6) by lia.
  destruct d; decompose [or] Hc; subst n;
    eexists; (split; [|split; reflexivity]); simpl; tauto.
Qed.

(** [get_default_text] outside the range of the constructor: the index
    [n_axes - 2] wraps around for [n_axes] from -3 to 1, which gives an
    entry counted from the end of the table, so the call returns an
    entry of the table exactly for [-3 <= n_axes <= 6] and raises an
    [IndexError], whatever its message, for every other [n_axes]. *)
Theorem get_default_text_index_range (self : AxesWidget) :
  if (-3 <=? n_axes self) && (n_axes self <=? 6) then
    exists default,
      get_default_text self = Returned default
      /\ In default (defaults (is_3D self))
  else
    exists msg,
      get_default_text self = Raised (Exc (mkException IndexError msg)).
Proof.
  destruct self as [n d v t s]. simpl.
  destruct ((-3 <=? n) && (n <=? 6)) eqn:E.
  - apply andb_true_iff in E as [Hlo Hhi].
    apply Z.leb_le in Hlo. apply Z.leb_le in Hhi.
    assert (Hc : n = -3 \/ n = -2 \/ n = -1 \/ n = 0 \/ n = 1 \/ n = 2
                 \/ n = 3 \/ n = 4 \/ n = 5 \/ n = 6) by lia.
    destruct d; decompose [or] Hc; subst n;
      eexists; (split; [reflexivity|]); simpl; tauto.
  - apply andb_false_iff in E.
    unfold get_default_text, getitem. simpl is_3D. simpl n_axes.
    assert (Hlen : len (defaults d) = 5) by (destruct d; reflexivity).
    cbv zeta. rewrite Hlen.
    destruct E as [E | E]; apply Z.leb_gt in E.
    + assert (E1 : (n - 2 <? 0) = true) by (apply Z.ltb_lt; lia).
      assert (E2 : (n - 2 + 5 <? 0) = true) by (apply Z.ltb_lt; lia).
      rewrite E1, E2. eexists. reflexivity.
    + assert (E1 : (n - 2 <? 0) = false) by (apply Z.ltb_ge; lia).
      assert (E2 : (5 <=? n - 2) = true) by (apply Z.leb_le; lia).
      rewrite !E1, E2. eexists. reflexivity.
Qed.

(** What a change of the text does to the signal of the widget: without
    a signal nothing; with one, [use_channels] becomes whether the new
    text contains the letter C (as typed, in upper case) when the new
    text is valid and accepted for the current [n_axes] and [is_3D], and
    stays as it was when it is not; the rest of the signal is
    untouched.  The widget is validated for the new text. *)
Theorem textChanged_updates_use_channels {Other : Type}
    (self : AxesWidget) (signal : ConfigurationSignal Other)
    (new_text : string) :
  let changed :=
    mkAxesWidget (n_axes self) (is_3D self) (is_text_valid self) new_text
      (styleSheet self) in
  let accepted :=
    are_axes_valid new_text
    && str_in (upper new_text) (filter_dimensions (n_axes self) (is_3D self)) in
  textChanged self (Some signal) new_text
  = (_validate_text changed,
     Some {| use_channels :=
               if accepted then char_in "C" new_text else use_channels signal;
             signal_other := signal_other signal |})
  /\ textChanged self (@None (ConfigurationSignal Other)) new_text
     = (_validate_text changed, None)
  /\ is_text_valid (_validate_text changed) = accepted.
Proof.
  unfold textChanged, _axes_changed, get_axes.
  rewrite _validate_text_cases. simpl.
  destruct (are_axes_valid new_text && str_in _ _); simpl.
  - auto.
  - destruct signal; auto.
Qed.

End WidgetMore.

Lemma list_ascii_of_string_append (s1 s2 : string) :
  list_ascii_of_string (s1 ++ s2)
  = list_ascii_of_string s1 ++ list_ascii_of_string s2.
Proof.
  induction s1 as [|c s1 IH]; simpl; [reflexivity|].
  rewrite IH. reflexivity.
Qed.

(** [LettersValidator.validate] looks at the last character only: what
    comes before it, recognised or not, does not change the state, which
    is Acceptable when the last character is among the options and
    Invalid when it is not. *)
Theorem validate_ignores_all_but_last
    (self : LettersValidator.t) (before : string) (last : ascii) (pos : Z) :
  let value := (before ++ String last "")%string in
  LettersValidator.validate self value pos
  = Returned
      (if char_in last (LettersValidator._options self)
       then Acceptable else Invalid,
       value, pos).
Proof.
  simpl. rewrite validate_eq, list_ascii_of_string_append, rev_app_distr.
  simpl. destruct (char_in last _); reflexivity.
Qed.

(** Typing the axes with the sample rules that accept YX and CYX in
    either case: the upper-case C switches the channels on, the
    lower-case c, though accepted, switches them off, and a text that is
    not accepted leaves them as they were. *)
Example textChanged_samples :
  let w := mkAxesWidget 3 false true "YX" "color: white;" in
  let on := Some (mkConfigurationSignal true tt) in
  let off := Some (mkConfigurationSignal false tt) in
  snd (@textChanged Samples.channel_rules unit w off "CYX") = on
  /\ snd (@textChanged Samples.channel_rules unit w on "cyx") = off
  /\ snd (@textChanged Samples.channel_rules unit w on "CY") = on
  /\ styleSheet (fst (@textChanged Samples.channel_rules unit w on "CY"))
     = "color: red;"%string.
Proof. repeat split; reflexivity. Qed.
